(** * create-react-csr-app: the command-line scaffolder [bin/cli.js]

    A shallow embedding of the program's decision logic and of the order of
    its side effects, and the properties of it that the specification states.

    JavaScript strings are sequences of UTF-16 code units; they are modelled
    as lists of code units so that the character classes of the two regular
    expressions of the name question ([\s], [\d], [A-Za-z]) mean here what
    they mean in the program. *)

From Stdlib Require Import String Ascii NArith ZArith List Bool Lia.
From stdpp Require Import gmap list fin_maps.
Import ListNotations.

Local Open Scope N_scope.
Local Open Scope list_scope.

(** ** Strings *)

Abbreviation jsstring := (list N).

(** The code units of an ASCII literal of the source. *)
Fixpoint js (s : string) : jsstring :=
  match s with
  | EmptyString => []
  | String c r => N_of_ascii c :: js r
  end.

Definition dquote : jsstring := [34].
Definition newline : jsstring := [10].
Definition space : jsstring := [32].
Definition hyphen : N := 45.
Definition underscore : N := 95.

(** [Array.prototype.join]: the elements separated by [sep]. *)
Fixpoint join (sep : jsstring) (xs : list jsstring) : jsstring :=
  match xs with
  | [] => []
  | [x] => x
  | x :: rest => x ++ sep ++ join sep rest
  end.

(** ** The project-name question (cli.js, lines 30-41) *)

Module NameQuestion.

(** The class [A-Za-z]: no [i] and no [u] flag, so ASCII letters only. *)
Definition is_letter (c : N) : bool :=
  ((65 <=? c) && (c <=? 90)) || ((97 <=? c) && (c <=? 122)).

(** The class [\d] of ECMAScript: the ten ASCII digits. *)
Definition is_digit (c : N) : bool := (48 <=? c) && (c <=? 57).

(** The class [\s] of ECMAScript: WhiteSpace and LineTerminator code
    points (TAB, LF, VT, FF, CR, SP, NBSP, U+1680, U+2000-U+200A, U+2028,
    U+2029, U+202F, U+205F, U+3000, U+FEFF). *)
Definition is_whitespace (c : N) : bool :=
  ((9 <=? c) && (c <=? 13)) || (c =? 32) || (c =? 160) || (c =? 5760)
  || ((8192 <=? c) && (c <=? 8202)) || (c =? 8232) || (c =? 8233)
  || (c =? 8239) || (c =? 8287) || (c =? 12288) || (c =? 65279).

(** The bracket expression [[A-Za-z\d\s\-\_]]. *)
Definition in_class (c : N) : bool :=
  is_letter c || is_digit c || is_whitespace c
  || (c =? hyphen) || (c =? underscore).

(** [/^[A-Za-z\d\s\-\_]+$/.test(input)]: without the [m] flag the anchors
    are the two ends of the input, and [+] asks for one character at
    least. *)
Definition regex_test (input : jsstring) : bool :=
  match input with
  | [] => false
  | _ :: _ => forallb in_class input
  end.

(** What [validate] returns: [true], or the message to display. *)
Inductive validation : Type :=
| Valid
| Invalid (message : jsstring).

Definition error_message : jsstring :=
  js "Project name may only include letters, numbers, spaces, underscores and hashes.".

Definition validate (input : jsstring) : validation :=
  if regex_test input then Valid else Invalid error_message.

(** [input.replace(/\s+/g, '-')].  [in_run] tells that the previous code
    unit was white space, whose run has already produced its hyphen. *)
Fixpoint replace_runs (in_run : bool) (input : jsstring) : jsstring :=
  match input with
  | [] => []
  | c :: rest =>
      if is_whitespace c
      then (if in_run then [] else [hyphen]) ++ replace_runs true rest
      else c :: replace_runs false rest
  end.

Definition filter (input : jsstring) : jsstring := replace_runs false input.

(** The answer the prompt records for one line typed by the user: the
    filtered line when it validates, nothing (the question is asked
    again) when it does not. *)
Definition accept (input : jsstring) : option jsstring :=
  match validate input with
  | Valid => Some (filter input)
  | Invalid _ => None
  end.

(** The first line of [typed] that is accepted. *)
Fixpoint ask (typed : list jsstring) : option jsstring :=
  match typed with
  | [] => None
  | line :: more =>
      match accept line with
      | Some name => Some name
      | None => ask more
      end
  end.

(** *** The specification's wording of the filter

    "Every maximal run of white space is replaced by a single hyphen":
    the input is cut into its maximal blocks of white space and of other
    characters, and each block of white space becomes one hyphen. *)
Fixpoint blocks (input : jsstring) : list (bool * jsstring) :=
  match input with
  | [] => []
  | c :: rest =>
      match blocks rest with
      | (w, b) :: more =>
          if Bool.eqb w (is_whitespace c)
          then (w, c :: b) :: more
          else (is_whitespace c, [c]) :: (w, b) :: more
      | [] => [(is_whitespace c, [c])]
      end
  end.

(** Neighbouring blocks are of different kinds. *)
Fixpoint alternating (bs : list (bool * jsstring)) : Prop :=
  match bs with
  | b1 :: ((b2 :: _) as more) => b1.1 <> b2.1 /\ alternating more
  | _ => True
  end.

Definition hyphenate (blk : bool * jsstring) : jsstring :=
  if fst blk then [hyphen] else snd blk.

Definition spec_filter (input : jsstring) : jsstring :=
  flat_map hyphenate (blocks input).

End NameQuestion.

(** ** Data model *)

Module Styling.
Inductive t : Type := mui | tailwind | none.
End Styling.

Module Linting.
Inductive t : Type := eslintPrettier | biome | none.
End Linting.

Module Router.
Inductive t : Type := none | reactRouter | tanStackRouter.
End Router.

Module ReactQuery.
Inductive t : Type := no | yes.
End ReactQuery.

Set Warnings "-register-all".

(** JSON values, as [require] and [JSON.parse] produce them.  An object is a
    finite map from property names to values; a number is kept as its
    literal, the program never computes with one. *)
Inductive json : Type :=
| JNull
| JBool (b : bool)
| JNumber (literal : jsstring)
| JString (s : jsstring)
| JArray (items : list json)
| JObject (members : gmap jsstring json).

Abbreviation table := (gmap jsstring json).

(** The parsed [package.json]: its [scripts] member (absent, or an object
    from script names to commands) and its other members. *)
Record manifest : Type := Manifest {
  pkg_scripts : option table;
  pkg_members : table
}.

(** The object [JSON.stringify] receives when the manifest is written. *)
Definition manifest_json (m : manifest) : json :=
  JObject match pkg_scripts m with
          | Some t => <[js "scripts" := JObject t]> (pkg_members m)
          | None => pkg_members m
          end.

(** The global [userAnswers]; [None] is JavaScript's [undefined]. *)
Record user_answers : Type := UserAnswers {
  projectName : option jsstring;
  styling : Styling.t;
  linting : Linting.t;
  router : Router.t;
  reactQuery : ReactQuery.t
}.

(** The object [inquirer.prompt] resolves to: [ans_projectName] is there
    only when the name question was among the prompts. *)
Record answers : Type := Answers {
  ans_projectName : option jsstring;
  ans_styling : Styling.t;
  ans_linting : Linting.t;
  ans_router : Router.t;
  ans_reactQuery : ReactQuery.t
}.

(** The person at the terminal: the lines typed at the name question, in
    order, and the entries selected in the four lists ([None]: the session
    ended before all were answered). *)
Record user : Type := User {
  typed : list jsstring;
  selects : option (Styling.t * Linting.t * Router.t * ReactQuery.t)
}.

(** ** Errors, events and the operating system *)

Inductive error : Type :=
| ENOENT (syscall file : jsstring)
| CommandFailed (command : jsstring) (status : Z)
| ModuleNotFound (file : jsstring)
| SyntaxError (file : jsstring)
| TypeError (message : jsstring)
| PromptClosed
| SystemError (code : jsstring).

Inductive color : Type := blue | green | cyan | red.

Inductive console_arg : Type :=
| Plain (text : jsstring)
| Chalk (c : color) (text : jsstring)
| Thrown_value (e : error).

(** What the process does to the outside world, in the order it does it. *)
Inductive event : Type :=
| EnsureDirSync (dir : jsstring)
| ExecSync (command : jsstring)
| Chdir (dir : jsstring)
| WriteFileSync (file data : jsstring)
| UnlinkSync (file : jsstring)
| Require (file : jsstring)
| ConsoleLog (args : list console_arg)
| ConsoleError (args : list console_arg)
| ProcessExit (code : Z).

(** The part of the machine the program touches: the working directory
    and the regular files, by absolute path. *)
Record os : Type := OS {
  cwd : jsstring;
  files : gmap jsstring jsstring
}.

(** What the program takes from Node and from the machine without defining
    it: path arithmetic, the JSON codec, the child processes ([spawn] gives
    the exit status and what the child left on disk) and the reasons the
    system may have to refuse a call (permissions, a full disk, ...). *)
Class Runtime : Type := {
  path_resolve : jsstring -> jsstring -> jsstring;
  path_join : jsstring -> jsstring -> jsstring;
  JSON_parse : jsstring -> option manifest;
  JSON_stringify : json -> jsstring;
  spawn : jsstring -> os -> Z * os;
  refuses : event -> os -> option error
}.

Record state : Type := State {
  sys : os;
  userAnswers : user_answers;
  dependencies : list jsstring;
  devDependencies : list jsstring;
  log : list event
}.

(** The process as it starts (cli.js, lines 10-19). *)
Definition initial (o : os) : state :=
  {| sys := o;
     userAnswers := {| projectName := Some []; styling := Styling.none;
                       linting := Linting.none; router := Router.none;
                       reactQuery := ReactQuery.no |};
     dependencies := [];
     devDependencies := [];
     log := [] |}.

(** ** A state and exception monad *)

Inductive result (A : Type) : Type :=
| Ok (a : A)
| Thrown (e : error).
Arguments Ok {A} a.
Arguments Thrown {A} e.

Definition M (A : Type) : Type := state -> result A * state.

Definition ret {A} (a : A) : M A := fun s => (Ok a, s).

Definition throw {A} (e : error) : M A := fun s => (Thrown e, s).

Definition bind {A B} (m : M A) (k : A -> M B) : M B :=
  fun s =>
    match m s with
    | (Ok a, s') => k a s'
    | (Thrown e, s') => (Thrown e, s')
    end.

Notation "x <- m ;; k" := (bind m (fun x => k))
  (at level 100, m at next level, right associativity).
Notation "m ;; k" := (bind m (fun _ => k))
  (at level 100, right associativity).

Definition try_catch {A} (m : M A) (handler : error -> M A) : M A :=
  fun s =>
    match m s with
    | (Ok a, s') => (Ok a, s')
    | (Thrown e, s') => handler e s'
    end.

Definition gets {A} (f : state -> A) : M A := fun s => (Ok (f s), s).

Definition lift {A} (r : result A) : M A := fun s => (r, s).

Definition record (ev : event) (s : state) : state :=
  {| sys := sys s; userAnswers := userAnswers s;
     dependencies := dependencies s; devDependencies := devDependencies s;
     log := log s ++ [ev] |}.

Definition with_sys (o : os) (s : state) : state :=
  {| sys := o; userAnswers := userAnswers s;
     dependencies := dependencies s; devDependencies := devDependencies s;
     log := log s |}.

Definition set_userAnswers (ua : user_answers) : M unit :=
  fun s => (Ok tt,
            {| sys := sys s; userAnswers := ua;
               dependencies := dependencies s;
               devDependencies := devDependencies s; log := log s |}).

(** [dependencies.push(...)] and [devDependencies.push(...)]. *)
Definition push_dependencies (pkgs : list jsstring) : M unit :=
  fun s => (Ok tt,
            {| sys := sys s; userAnswers := userAnswers s;
               dependencies := dependencies s ++ pkgs;
               devDependencies := devDependencies s; log := log s |}).

Definition push_devDependencies (pkgs : list jsstring) : M unit :=
  fun s => (Ok tt,
            {| sys := sys s; userAnswers := userAnswers s;
               dependencies := dependencies s;
               devDependencies := devDependencies s ++ pkgs; log := log s |}).

Definition emit (ev : event) : M unit := fun s => (Ok tt, record ev s).

Definition console_log (args : list console_arg) : M unit :=
  emit (ConsoleLog args).

Definition console_error (args : list console_arg) : M unit :=
  emit (ConsoleError args).

(** ** The calls into Node *)

Section Node.
Context `{Runtime}.

(** A call the system may refuse; [effect] is what it does otherwise.  The
    call is logged whether it succeeds or not. *)
Definition syscall (ev : event) (effect : os -> result os) : M unit :=
  fun s =>
    match refuses ev (sys s) with
    | Some e => (Thrown e, record ev s)
    | None =>
        match effect (sys s) with
        | Ok o => (Ok tt, with_sys o (record ev s))
        | Thrown e => (Thrown e, record ev s)
        end
    end.

(** [fs.ensureDirSync]: directories are not part of [os]. *)
Definition ensureDirSync (dir : jsstring) : M unit :=
  syscall (EnsureDirSync dir) (fun o => Ok o).

(** [process.chdir], called with an absolute path. *)
Definition chdir (dir : jsstring) : M unit :=
  syscall (Chdir dir) (fun o => Ok {| cwd := dir; files := files o |}).

(** [fs.writeFileSync]: creates the file or replaces its content.  A write
    that the system refuses is taken here as not having happened; on a real
    machine the file is opened (and emptied) before it is written, so after
    a write that fails midway the file can be empty or partial.  What is
    stated below about the content of files is stated for writes that are
    not refused. *)
Definition writeFileSync (file data : jsstring) : M unit :=
  syscall (WriteFileSync file data)
    (fun o => Ok {| cwd := cwd o;
                    files := <[path_resolve (cwd o) file := data]> (files o) |}).

(** [fs.unlinkSync]: throws ENOENT when there is no such file. *)
Definition unlinkSync (file : jsstring) : M unit :=
  syscall (UnlinkSync file)
    (fun o =>
       match files o !! path_resolve (cwd o) file with
       | Some _ =>
           Ok {| cwd := cwd o;
                 files := delete (path_resolve (cwd o) file) (files o) |}
       | None => Thrown (ENOENT (js "unlink") file)
       end).

(** [execSync(command, { stdio: 'ignore' })]: throws when the child does not
    exit with status 0. *)
Definition execSync (command : jsstring) : M unit :=
  fun s =>
    let (status, o) := spawn command (sys s) in
    (if (status =? 0)%Z then Ok tt else Thrown (CommandFailed command status),
     with_sys o (record (ExecSync command) s)).

(** [require] of a JSON file, by absolute path. *)
Definition require (file : jsstring) : M manifest :=
  fun s =>
    (match refuses (Require file) (sys s) with
     | Some e => Thrown e
     | None =>
         match files (sys s) !! file with
         | None => Thrown (ModuleNotFound file)
         | Some text =>
             match JSON_parse text with
             | Some m => Ok m
             | None => Thrown (SyntaxError file)
             end
         end
     end,
     record (Require file) s).

Definition process_cwd : M jsstring := gets (fun s => cwd (sys s)).

(** [inquirer.prompt(prompts)], which is not part of the sources.  When
    the questions are answered the promise resolves to the answers: the name
    question, when it is asked, is repeated until a typed line is accepted.
    Modelled from the spec: what happens when the session ends before that
    ("the prompt fails with an InputAborted condition", section 4.1) is
    taken from the specification, as a rejected promise; a version of the
    library that never settles the promise and ends the process instead
    does not do this.  The properties of whole runs stated below are stated
    for sessions in which the questions are answered. *)
Definition inquirer_prompt (name_asked : bool) (u : user) : M answers :=
  name <- (if name_asked
           then match NameQuestion.ask (typed u) with
                | Some n => ret (Some n)
                | None => throw PromptClosed
                end
           else ret None) ;;
  match selects u with
  | Some (st, li, ro, rq) =>
      ret {| ans_projectName := name; ans_styling := st; ans_linting := li;
             ans_router := ro; ans_reactQuery := rq |}
  | None => throw PromptClosed
  end.

End Node.

(** ** The program (cli.js, lines 21-202) *)

Definition tailwindVersion : jsstring := js "3.4.17".

(** [!projectDirectory]: no argument, or the empty string. *)
Definition not_given (projectDirectory : option jsstring) : bool :=
  match projectDirectory with
  | None | Some [] => true
  | Some (_ :: _) => false
  end.

(** [a ?? b]. *)
Definition nullish {A} (a b : option A) : option A :=
  match a with
  | Some x => Some x
  | None => b
  end.

Definition mui_packages : list jsstring :=
  [js "@mui/material"; js "@emotion/react"; js "@emotion/styled";
   js "@mui/icons-material"].

Definition tailwind_packages : list jsstring :=
  [js "tailwindcss@" ++ tailwindVersion; js "postcss"; js "autoprefixer"].

Definition eslint_packages : list jsstring :=
  [js "eslint"; js "prettier"; js "eslint-config-prettier";
   js "eslint-plugin-prettier"; js "eslint-plugin-react";
   js "eslint-plugin-react-hooks"].

Definition biome_packages : list jsstring := [js "@biomejs/biome"].

(** The object literal written to [.prettierrc]. *)
Definition prettierrc : json :=
  JObject (<[js "tabWidth" := JNumber (js "2")]>
          (<[js "printWidth" := JNumber (js "100")]>
          (<[js "singleQuote" := JBool true]>
          (<[js "trailingComma" := JString (js "es5")]>
          (<[js "semi" := JBool true]> ∅))))).

(** The template literal of lines 143-153. *)
Definition tailwind_config : jsstring :=
  join newline
    [js "/** @type {import('tailwindcss').Config} */";
     js "export default {";
     js "  content: [";
     js "    " ++ dquote ++ js "./index.html" ++ dquote ++ js ",";
     js "    " ++ dquote ++ js "./src/**/*.{js,ts,jsx,tsx}" ++ dquote ++ js ",";
     js "  ],";
     js "  theme: {";
     js "    extend: {},";
     js "  },";
     js "  plugins: [],";
     js "}"].

Definition index_css : jsstring :=
  js "@tailwind base;" ++ newline ++ js "@tailwind components;" ++ newline
  ++ js "@tailwind utilities;".

Definition lint : jsstring := js "lint".
Definition lint_fix : jsstring := js "lint:fix".
Definition format : jsstring := js "format".

(** [Object.entries] and [Object.fromEntries] on an object, and the
    spread of a value that may be [undefined]. *)
Definition Object_entries (o : table) : list (jsstring * json) :=
  map_to_list o.

Definition Object_fromEntries (l : list (jsstring * json)) : table :=
  list_to_map l.

Definition spread (o : option table) : table :=
  match o with
  | Some t => t
  | None => ∅
  end.

(** The function that computes [scripts] (lines 166-186). *)
Definition scripts (l : Linting.t) (packageJson_scripts : option table)
  : result table :=
  match l with
  | Linting.eslintPrettier =>
      Ok (<[format := JString (js "prettier --write 'src/**/*.{ts,tsx,css,md}'")]>
         (<[lint_fix := JString (js "eslint src --ext .ts,.tsx --fix")]>
         (<[lint := JString (js "eslint src --ext .ts,.tsx")]>
         (spread packageJson_scripts))))
  | Linting.biome =>
      Ok (<[lint_fix := JString (js "biome check --apply --fix src")]>
         (<[lint := JString (js "biome check --apply src")]>
         (spread packageJson_scripts)))
  | Linting.none =>
      match packageJson_scripts with
      | Some t =>
          Ok (Object_fromEntries
                (filter (fun entry => entry.1 ∉ [lint; lint_fix; format])
                        (Object_entries t)))
      | None =>
          Thrown (TypeError (js "Cannot convert undefined or null to object"))
      end
  end.

Section Program.
Context `{Runtime}.

(** Lines 107-112. *)
Definition add_styling_dependencies : M unit :=
  st <- gets (fun s => styling (userAnswers s)) ;;
  match st with
  | Styling.mui => push_dependencies mui_packages
  | Styling.tailwind => push_devDependencies tailwind_packages
  | Styling.none => ret tt
  end.

(** Lines 114-127. *)
Definition add_linting_dependencies : M unit :=
  li <- gets (fun s => linting (userAnswers s)) ;;
  match li with
  | Linting.eslintPrettier =>
      push_devDependencies eslint_packages ;;
      writeFileSync (js ".prettierrc") (JSON_stringify prettierrc)
  | Linting.biome =>
      push_devDependencies biome_packages ;;
      unlinkSync (js "eslint.config.js")
  | Linting.none => ret tt
  end.

(** The option resolver: both of the above. *)
Definition resolve_options : M unit :=
  add_styling_dependencies ;; add_linting_dependencies.

Definition install_dev_command (pkgs : list jsstring) : jsstring :=
  js "npm install --save-dev " ++ join space pkgs.

Definition install_command (pkgs : list jsstring) : jsstring :=
  js "npm install " ++ join space pkgs.

(** Lines 129-137. *)
Definition install_dependencies : M unit :=
  dev <- gets devDependencies ;;
  (if (0 <? length dev)%nat
   then console_log [Chalk blue (newline ++ js "Installing development dependencies...")] ;;
        execSync (install_dev_command dev)
   else ret tt) ;;
  deps <- gets dependencies ;;
  (if (0 <? length deps)%nat
   then console_log [Chalk blue (newline ++ js "Installing dependencies...")] ;;
        execSync (install_command deps)
   else ret tt).

(** Lines 139-157. *)
Definition configure_tailwind : M unit :=
  st <- gets (fun s => styling (userAnswers s)) ;;
  match st with
  | Styling.tailwind =>
      execSync (js "npx tailwindcss init -p") ;;
      writeFileSync (js "tailwind.config.js") tailwind_config ;;
      writeFileSync (js "src/index.css") index_css
  | _ => ret tt
  end.

(** Lines 159-162. *)
Definition initialize_biome : M unit :=
  li <- gets (fun s => linting (userAnswers s)) ;;
  match li with
  | Linting.biome => execSync (js "npx biome init")
  | _ => ret tt
  end.

(** Lines 164-188. *)
Definition update_package_json : M unit :=
  dir <- process_cwd ;;
  packageJson <- require (path_join dir (js "package.json")) ;;
  li <- gets (fun s => linting (userAnswers s)) ;;
  new_scripts <- lift (scripts li (pkg_scripts packageJson)) ;;
  writeFileSync (js "package.json")
    (JSON_stringify
       (manifest_json {| pkg_scripts := Some new_scripts;
                         pkg_members := pkg_members packageJson |})).

(** Lines 190-197. *)
Definition report (name projectPath : jsstring) : M unit :=
  console_log [Chalk green (join space [newline ++ js "Success! Created"; name;
                                        js "at"; projectPath])] ;;
  console_log [Chalk blue (newline ++ js "Inside that directory, you can run several commands:")] ;;
  console_log [Chalk cyan (newline ++ js "  npm run dev")] ;;
  console_log [Plain (js "    Starts the development server.")] ;;
  console_log [Chalk cyan (newline ++ js "  npm run build")] ;;
  console_log [Plain (js "    Bundles the app into static files for production.")] ;;
  console_log [Chalk cyan (js "  npm run dev")] ;;
  console_log [Chalk blue (newline ++ js "Go build your Billion dollar app now!")].

(** Lines 29-92: the questions are asked and the answers are stored. *)
Definition ask_questions (projectDirectory : option jsstring) (u : user)
  : M unit :=
  a <- inquirer_prompt (not_given projectDirectory) u ;;
  set_userAnswers
    {| projectName := nullish (ans_projectName a) projectDirectory;
       styling := ans_styling a;
       linting := ans_linting a;
       router := ans_router a;
       reactQuery := ans_reactQuery a |}.

(** Lines 94-105: the directory is made, the scaffolder is run in it.
    The result is the project name and its absolute path. *)
Definition scaffold : M (jsstring * jsstring) :=
  pn <- gets (fun s => projectName (userAnswers s)) ;;
  match pn with
  | None =>
      throw (TypeError (js "The path argument must be of type string. Received undefined"))
  | Some name =>
      dir <- process_cwd ;;
      let projectPath := path_resolve dir name in
      console_log [Chalk blue (js "Creating a new React CSR app in " ++ projectPath)] ;;
      ensureDirSync projectPath ;;
      execSync (js "npm create vite@latest " ++ name ++ js " -- --template react-swc-ts") ;;
      chdir projectPath ;;
      ret (name, projectPath)
  end.

(** Lines 94-137: everything up to and with the installation of the
    packages. *)
Definition prepare : M (jsstring * jsstring) :=
  project <- scaffold ;;
  resolve_options ;;
  install_dependencies ;;
  ret project.

(** Lines 94-197: the whole of the work, once the answers are stored. *)
Definition materialize : M Z :=
  project <- prepare ;;
  configure_tailwind ;;
  initialize_biome ;;
  update_package_json ;;
  report project.1 project.2 ;;
  ret 0%Z.

(** The body of the [try] block. *)
Definition try_block (projectDirectory : option jsstring) (u : user) : M Z :=
  ask_questions projectDirectory u ;; materialize.

(** The [catch] block (lines 198-201): the one place errors end up. *)
Definition handler (e : error) : M Z :=
  console_error [Chalk red (js "Error:"); Thrown_value e] ;;
  emit (ProcessExit 1) ;;
  ret 1%Z.

(** The action of the command: its exit status. *)
Definition action (projectDirectory : option jsstring) (u : user) : M Z :=
  try_catch (try_block projectDirectory u) handler.

(** One run of the program, from a fresh process. *)
Definition run (projectDirectory : option jsstring) (u : user) (o : os)
  : result Z * state :=
  action projectDirectory u (initial o).

End Program.

(** The commands of the child processes started, in order. *)
Definition commands (evs : list event) : list jsstring :=
  flat_map (fun ev => match ev with ExecSync c => [c] | _ => [] end) evs.

(** ** A machine to run the program on

    Paths are joined with a slash; the scaffolder leaves a manifest and,
    depending on its version, a flat ESLint configuration in the project
    directory; every other child succeeds and changes nothing; the system
    refuses nothing. *)

Definition slash_join (dir p : jsstring) : jsstring := dir ++ js "/" ++ p.

Definition vite_manifest : manifest :=
  {| pkg_scripts :=
       Some (<[js "dev" := JString (js "vite")]>
            (<[js "build" := JString (js "tsc -b && vite build")]>
            (<[lint := JString (js "eslint .")]>
            (<[js "preview" := JString (js "vite preview")]> ∅))));
     pkg_members := <[js "name" := JString (js "app")]> ∅ |}.

Definition create_vite (flat_config : bool) (name : jsstring) (o : os) : os :=
  let dir := slash_join (cwd o) name in
  {| cwd := cwd o;
     files :=
       <[slash_join dir (js "package.json") := js "{...}"]>
         (if flat_config
          then <[slash_join dir (js "eslint.config.js") := js "export default []"]> (files o)
          else files o) |}.

Definition vite_spawn (flat_config : bool) (name command : jsstring) (o : os)
  : Z * os :=
  if decide (command = js "npm create vite@latest " ++ name
                       ++ js " -- --template react-swc-ts")
  then (0%Z, create_vite flat_config name o)
  else (0%Z, o).

Definition machine (flat_config : bool) (name : jsstring) : Runtime :=
  {| path_resolve := slash_join;
     path_join := slash_join;
     JSON_parse := fun _ => Some vite_manifest;
     JSON_stringify := fun _ => js "{...}";
     spawn := vite_spawn flat_config name;
     refuses := fun _ _ => None |}.

Definition home : os := {| cwd := js "/home"; files := ∅ |}.

Definition someone (line : jsstring) (st : Styling.t) (li : Linting.t) : user :=
  {| typed := [line];
     selects := Some (st, li, Router.none, ReactQuery.no) |}.

(** ** What a step may do

    The vocabulary of the statements about whole runs. *)

(** [steady ua P m]: started with the answers [ua] stored, [m] leaves them
    as they are and adds to the log only events of [P]. *)
Definition steady {A} (ua : user_answers) (P : event -> Prop) (m : M A) : Prop :=
  forall s r s',
    userAnswers s = ua -> m s = (r, s') ->
    userAnswers s' = ua /\ exists evs, log s' = log s ++ evs /\ Forall P evs.

(** Events that neither write nor remove a file. *)
Definition benign (ev : event) : Prop :=
  match ev with
  | WriteFileSync _ _ | UnlinkSync _ => False
  | _ => True
  end.

(** The file operations the program can make when the answers are [ua]. *)
Definition expected (ua : user_answers) (ev : event) : Prop :=
  match ev with
  | WriteFileSync file data =>
      (file = js ".prettierrc" /\ linting ua = Linting.eslintPrettier)
      \/ (file = js "tailwind.config.js" /\ data = tailwind_config
          /\ styling ua = Styling.tailwind)
      \/ (file = js "src/index.css" /\ data = index_css
          /\ styling ua = Styling.tailwind)
      \/ file = js "package.json"
  | UnlinkSync file =>
      file = js "eslint.config.js" /\ linting ua = Linting.biome
  | _ => True
  end.

(** The file operations that can follow the styling step. *)
Definition closing (ev : event) : Prop :=
  match ev with
  | WriteFileSync file _ => file = js "package.json"
  | UnlinkSync _ => False
  | _ => True
  end.

(** The file operations that can precede the styling step. *)
Definition opening (ev : event) : Prop :=
  match ev with
  | WriteFileSync file _ => file = js ".prettierrc"
  | UnlinkSync file => file = js "eslint.config.js"
  | _ => True
  end.

(** ** The shape of a run that succeeds

    What the answers make the program install and do, step by step; the
    statements about successful runs compare the log with these. *)

Definition planned_dependencies (st : Styling.t) : list jsstring :=
  match st with
  | Styling.mui => mui_packages
  | _ => []
  end.

Definition planned_devDependencies (st : Styling.t) (li : Linting.t)
  : list jsstring :=
  match st with
  | Styling.tailwind => tailwind_packages
  | _ => []
  end
  ++ match li with
     | Linting.eslintPrettier => eslint_packages
     | Linting.biome => biome_packages
     | Linting.none => []
     end.

Definition scaffold_events (name projectPath : jsstring) : list event :=
  [ConsoleLog [Chalk blue (js "Creating a new React CSR app in " ++ projectPath)];
   EnsureDirSync projectPath;
   ExecSync (js "npm create vite@latest " ++ name
             ++ js " -- --template react-swc-ts");
   Chdir projectPath].

Definition linting_events `{Runtime} (li : Linting.t) : list event :=
  match li with
  | Linting.eslintPrettier =>
      [WriteFileSync (js ".prettierrc") (JSON_stringify prettierrc)]
  | Linting.biome => [UnlinkSync (js "eslint.config.js")]
  | Linting.none => []
  end.

Definition install_events (dev deps : list jsstring) : list event :=
  match dev with
  | [] => []
  | _ :: _ =>
      [ConsoleLog [Chalk blue (newline ++ js "Installing development dependencies...")];
       ExecSync (js "npm install --save-dev " ++ join space dev)]
  end
  ++ match deps with
     | [] => []
     | _ :: _ =>
         [ConsoleLog [Chalk blue (newline ++ js "Installing dependencies...")];
          ExecSync (js "npm install " ++ join space deps)]
     end.

Definition tailwind_events (st : Styling.t) : list event :=
  match st with
  | Styling.tailwind =>
      [ExecSync (js "npx tailwindcss init -p");
       WriteFileSync (js "tailwind.config.js") tailwind_config;
       WriteFileSync (js "src/index.css") index_css]
  | _ => []
  end.

Definition biome_events (li : Linting.t) : list event :=
  match li with
  | Linting.biome => [ExecSync (js "npx biome init")]
  | _ => []
  end.

Definition report_events (name projectPath : jsstring) : list event :=
  [ConsoleLog [Chalk green (join space [newline ++ js "Success! Created"; name;
                                        js "at"; projectPath])];
   ConsoleLog [Chalk blue (newline ++ js "Inside that directory, you can run several commands:")];
   ConsoleLog [Chalk cyan (newline ++ js "  npm run dev")];
   ConsoleLog [Plain (js "    Starts the development server.")];
   ConsoleLog [Chalk cyan (newline ++ js "  npm run build")];
   ConsoleLog [Plain (js "    Bundles the app into static files for production.")];
   ConsoleLog [Chalk cyan (js "  npm run dev")];
   ConsoleLog [Chalk blue (newline ++ js "Go build your Billion dollar app now!")]].

(** The events by which a run tells that it failed. *)
Definition failure_event (ev : event) : Prop :=
  match ev with
  | ConsoleError _ | ProcessExit _ => True
  | _ => False
  end.

(** Two states that differ at most in the answers to the router and the
    React Query questions. *)
Definition same_but_inert (s1 s2 : state) : Prop :=
  sys s1 = sys s2
  /\ projectName (userAnswers s1) = projectName (userAnswers s2)
  /\ styling (userAnswers s1) = styling (userAnswers s2)
  /\ linting (userAnswers s1) = linting (userAnswers s2)
  /\ dependencies s1 = dependencies s2
  /\ devDependencies s1 = devDependencies s2
  /\ log s1 = log s2.

(** [m] does the same from two such states. *)
Definition blind {A} (m : M A) : Prop :=
  forall s1 s2,
    same_but_inert s1 s2 ->
    (m s1).1 = (m s2).1 /\ same_but_inert (m s1).2 (m s2).2.

(** Two more machines: one on which every child process fails, one whose
    manifest has no [scripts] member. *)
Definition offline : Runtime :=
  {| path_resolve := slash_join;
     path_join := slash_join;
     JSON_parse := fun _ => Some vite_manifest;
     JSON_stringify := fun _ => js "{...}";
     spawn := fun _ o => (1%Z, o);
     refuses := fun _ _ => None |}.


(** A project directory as the scaffolder leaves it. *)
Definition scaffolded : os :=
  {| cwd := js "/home/app";
     files := <[js "/home/app/package.json" := js "{...}"]>
                (<[js "/home/app/eslint.config.js" := js "export default []"]> ∅) |}.

Definition in_project (li : Linting.t) (dev : list jsstring) : state :=
  {| sys := scaffolded;
     userAnswers := {| projectName := Some (js "app"); styling := Styling.none;
                       linting := li; router := Router.none;
                       reactQuery := ReactQuery.no |};
     dependencies := []; devDependencies := dev; log := [] |}.

(** [m] leaves the working directory where it is. *)
Definition keeps_cwd {A} (m : M A) : Prop :=
  forall s, cwd (sys (m s).2) = cwd (sys s).

(** * Properties *)

(** ** The name question *)

Section NameQuestionFacts.
Import NameQuestion.

Lemma in_class_cases (c : N) :
  in_class c = true <->
  is_letter c = true \/ is_digit c = true \/ is_whitespace c = true
  \/ c = hyphen \/ c = underscore.
Proof.
  unfold in_class.
  rewrite !orb_true_iff, !N.eqb_eq. tauto.
Qed.

Lemma whitespace_in_class (c : N) : is_whitespace c = true -> in_class c = true.
Proof. intros Hc. apply in_class_cases. tauto. Qed.

Lemma hyphen_in_class : in_class hyphen = true.
Proof. reflexivity. Qed.

Lemma regex_test_spec (input : jsstring) :
  regex_test input = true <->
  input <> [] /\ Forall (fun c => in_class c = true) input.
Proof.
  destruct input as [|c rest].
  - simpl. split; [discriminate | intros [Hne _]; congruence].
  - unfold regex_test. rewrite forallb_forall, Forall_forall.
    split.
    + intros Hall. split; [discriminate |].
      intros x Hx. apply Hall. by apply list_elem_of_In.
    + intros [_ Hall] x Hx. apply Hall. by apply list_elem_of_In.
Qed.

Lemma validate_valid (input : jsstring) :
  validate input = Valid <-> regex_test input = true.
Proof.
  unfold validate. destruct (regex_test input); split; congruence.
Qed.

(** The blocks are a partition of the input... *)
Lemma blocks_concat (input : jsstring) :
  flat_map snd (blocks input) = input.
Proof.
  induction input as [|c rest IH]; [reflexivity |].
  simpl. destruct (blocks rest) as [|[w b] more].
  - simpl in *. by rewrite <- IH.
  - destruct (Bool.eqb w (is_whitespace c)); simpl in *; by rewrite <- IH.
Qed.

(** ... each is non-empty and made of white space only, or of none... *)
Lemma blocks_uniform (input : jsstring) :
  Forall (fun blk => blk.2 <> [] /\
                     Forall (fun c => is_whitespace c = blk.1) blk.2)
         (blocks input).
Proof.
  induction input as [|c rest IH]; [constructor |].
  simpl. destruct (blocks rest) as [|[w b] more].
  - repeat constructor. discriminate.
  - destruct (Bool.eqb w (is_whitespace c)) eqn:Hw.
    + apply Bool.eqb_prop in Hw.
      inversion IH as [|? ? [_ Hb] Hmore]; subst.
      constructor; [|done]. simpl. split; [discriminate |].
      constructor; [done | exact Hb].
    + constructor; [|exact IH]. simpl. split; [discriminate |].
      by repeat constructor.
Qed.

(** ... and neighbours are of different kinds: the blocks are maximal. *)
Lemma blocks_alternating (input : jsstring) : alternating (blocks input).
Proof.
  induction input as [|c rest IH]; [exact I |].
  simpl. destruct (blocks rest) as [|[w b] more]; [exact I |].
  destruct (Bool.eqb w (is_whitespace c)) eqn:Hw.
  - destruct more; [exact I |]. exact IH.
  - split; [|exact IH]. simpl.
    apply Bool.eqb_false_iff in Hw. congruence.
Qed.

(** The program's filter, started inside or outside a run of white space,
    against the blocks. *)
Lemma replace_runs_blocks (input : jsstring) :
  replace_runs false input = flat_map hyphenate (blocks input) /\
  replace_runs true input =
    match blocks input with
    | (true, _) :: more => flat_map hyphenate more
    | bs => flat_map hyphenate bs
    end.
Proof.
  induction input as [|c rest [IHout IHin]]; [by split |].
  simpl. rewrite IHout, IHin.
  destruct (is_whitespace c) eqn:Hc, (blocks rest) as [|[[] b] more];
    by rewrite ?Hc.
Qed.

Lemma replace_runs_in_class (in_run : bool) (input : jsstring) :
  forallb in_class (replace_runs in_run input) = forallb in_class input.
Proof.
  revert in_run. induction input as [|c rest IH]; intros in_run; [done |].
  simpl. destruct (is_whitespace c) eqn:Hc.
  - rewrite forallb_app, IH, (whitespace_in_class c Hc).
    by destruct in_run.
  - simpl. by rewrite IH.
Qed.

(** Validation gives the same verdict on a line and on the filtered line:
    it does not matter in which order the prompt applies the two. *)
Lemma validate_filter (input : jsstring) :
  validate (filter input) = validate input.
Proof.
  unfold validate, filter, regex_test.
  destruct input as [|c rest]; [done |].
  rewrite <- (replace_runs_in_class false (c :: rest)).
  simpl. by destruct (is_whitespace c).
Qed.

(** So the recorded answer is the same when the prompt filters first. *)
Lemma accept_filter_first (input : jsstring) :
  accept input =
  match validate (filter input) with
  | Valid => Some (filter input)
  | Invalid _ => None
  end.
Proof. unfold accept. by rewrite validate_filter. Qed.

Lemma replace_runs_whitespace (input : jsstring) :
  Forall (fun c => is_whitespace c = true) input ->
  replace_runs true input = [].
Proof.
  induction 1 as [|c rest Hc _ IH]; [done |].
  simpl. by rewrite Hc, IH.
Qed.

(** C7. The name question accepts a line exactly when it is not empty and
    made of ASCII letters, digits, white space, hyphens and underscores only:
    [bad!name] and the empty line are rejected.  An accepted line is
    recorded with each maximal run of white space replaced by one hyphen:
    [My App] becomes [My-App]. *)
Theorem name_validation_and_filter :
  (forall input : jsstring,
      validate input = Valid <->
      input <> [] /\
      Forall (fun c => is_letter c = true \/ is_digit c = true
                       \/ is_whitespace c = true
                       \/ c = hyphen \/ c = underscore) input)
  /\ validate (js "bad!name") = Invalid error_message
  /\ validate [] = Invalid error_message
  /\ (forall input : jsstring, filter input = spec_filter input)
  /\ accept (js "My App") = Some (js "My-App").
Proof.
  split; [|split; [|split; [|split]]]; try reflexivity.
  - intros input. rewrite validate_valid, regex_test_spec.
    apply and_iff_compat_l, Forall_iff. intros c. apply in_class_cases.
  - intros input. apply replace_runs_blocks.
Qed.

End NameQuestionFacts.

(** ** The script table of the manifest *)

Section Scripts.
Implicit Types (t : table) (k : jsstring).

Lemma script_names_distinct :
  lint <> lint_fix /\ lint <> format /\ lint_fix <> format.
Proof. by repeat split. Qed.

(** The entries that survive the filter of line 184, read as a map. *)
Lemma fromEntries_filter_lookup t k :
  Object_fromEntries
    (filter (fun entry => entry.1 ∉ [lint; lint_fix; format]) (Object_entries t))
  !! k
  = if decide (k ∈ [lint; lint_fix; format]) then None else t !! k.
Proof.
  unfold Object_fromEntries, Object_entries.
  rewrite <- (map_filter_alt (fun entry : jsstring * json =>
                                entry.1 ∉ [lint; lint_fix; format])).
  rewrite map_lookup_filter.
  destruct (t !! k) as [v|]; simpl.
  - case_guard; case_decide; simpl in *; done.
  - by case_decide.
Qed.

Lemma reserved_name k :
  k ∈ [lint; lint_fix; format] <-> k = lint \/ k = lint_fix \/ k = format.
Proof. rewrite !elem_of_cons, elem_of_nil. tauto. Qed.

(** C2. With ESLint and Prettier chosen, whatever the script table was,
    the new one gives [lint], [lint:fix] and [format] their fixed commands
    and holds under every other name what the old one held. *)
Theorem eslint_prettier_scripts t :
  exists t',
    scripts Linting.eslintPrettier (Some t) = Ok t'
    /\ t' !! js "lint" = Some (JString (js "eslint src --ext .ts,.tsx"))
    /\ t' !! js "lint:fix" = Some (JString (js "eslint src --ext .ts,.tsx --fix"))
    /\ t' !! js "format"
       = Some (JString (js "prettier --write 'src/**/*.{ts,tsx,css,md}'"))
    /\ forall k,
        k <> js "lint" -> k <> js "lint:fix" -> k <> js "format" ->
        t' !! k = t !! k.
Proof.
  eexists. split; [reflexivity |].
  change (js "lint") with lint. change (js "lint:fix") with lint_fix.
  change (js "format") with format.
  destruct script_names_distinct as (H1 & H2 & H3).
  repeat split.
  - by rewrite lookup_insert_ne, lookup_insert_ne, lookup_insert_eq.
  - by rewrite lookup_insert_ne, lookup_insert_eq.
  - by rewrite lookup_insert_eq.
  - intros k Hl Hf Hp. by rewrite !lookup_insert_ne.
Qed.

(** C3. With no linter chosen, whatever the script table was, the new one
    has no [lint], no [lint:fix] and no [format], and holds under every
    other name what the old one held. *)
Theorem no_linting_scripts t :
  exists t',
    scripts Linting.none (Some t) = Ok t'
    /\ t' !! js "lint" = None
    /\ t' !! js "lint:fix" = None
    /\ t' !! js "format" = None
    /\ forall k,
        k <> js "lint" -> k <> js "lint:fix" -> k <> js "format" ->
        t' !! k = t !! k.
Proof.
  eexists. split; [reflexivity |].
  change (js "lint") with lint. change (js "lint:fix") with lint_fix.
  change (js "format") with format.
  repeat split; try intros k Hl Hf Hp; rewrite fromEntries_filter_lookup;
    case_decide as Hk; try done; rewrite reserved_name in Hk; tauto.
Qed.

(** A manifest without a script table: [Object.entries(undefined)]. *)
Lemma no_linting_without_scripts :
  scripts Linting.none None
  = Thrown (TypeError (js "Cannot convert undefined or null to object")).
Proof. reflexivity. Qed.

(** With Biome chosen the table is the old one with two names set. *)
Lemma biome_scripts_frame t k :
  k <> lint -> k <> lint_fix ->
  forall t', scripts Linting.biome (Some t) = Ok t' -> t' !! k = t !! k.
Proof.
  intros Hl Hf t' [= <-]. by rewrite !lookup_insert_ne.
Qed.

(** C4, as the specification has it, fails: a [format] script that was in
    the table is still there when Biome is chosen. *)
Lemma biome_scripts_format_survives :
  exists t',
    scripts Linting.biome
            (Some {[ js "format" := JString (js "prettier --write .") ]})
    = Ok t'
    /\ t' !! js "format" = Some (JString (js "prettier --write ."))
    /\ t' !! js "format" <> None.
Proof.
  eexists. split; [reflexivity |].
  change (js "format") with format.
  destruct script_names_distinct as (H1 & H2 & H3).
  rewrite !lookup_insert_ne by done. unfold spread.
  rewrite lookup_singleton_eq. by split.
Qed.

(** C4, amended. With Biome chosen, whatever the script table was, the new
    one gives [lint] and [lint:fix] their fixed commands and sets no
    [format] of its own: [format] is there afterwards exactly when it was
    there before, with the command it had. *)
Theorem biome_scripts t :
  exists t',
    scripts Linting.biome (Some t) = Ok t'
    /\ t' !! js "lint" = Some (JString (js "biome check --apply src"))
    /\ t' !! js "lint:fix" = Some (JString (js "biome check --apply --fix src"))
    /\ t' !! js "format" = t !! js "format".
Proof.
  eexists. split; [reflexivity |].
  change (js "lint") with lint. change (js "lint:fix") with lint_fix.
  change (js "format") with format.
  destruct script_names_distinct as (H1 & H2 & H3).
  repeat split.
  - by rewrite lookup_insert_ne, lookup_insert_eq.
  - by rewrite lookup_insert_eq.
  - by rewrite !lookup_insert_ne.
Qed.

End Scripts.

(** ** Reasoning about the monad *)

Arguments js : simpl never.
Arguments join : simpl never.

(** Reduction of the record projections and of the tests on lists, which
    leaves string literals as they are written. *)
Ltac state_cbn :=
  cbn [log sys userAnswers dependencies devDependencies cwd files
       projectName styling linting router reactQuery
       fst snd length Nat.ltb Nat.leb Z.eqb commands flat_map app].

Ltac unfold_monad :=
  unfold syscall, console_log, console_error, emit, push_dependencies,
    push_devDependencies, set_userAnswers, process_cwd, gets, lift,
    try_catch, bind, ret, throw in *.

Section Steady.
Context `{Runtime} (ua : user_answers) (P : event -> Prop).

Lemma steady_silent {A} (m : M A) :
  (forall s, exists r s',
      m s = (r, s') /\ userAnswers s' = userAnswers s /\ log s' = log s) ->
  steady ua P m.
Proof.
  intros Hm s r s' Hua Hrun.
  destruct (Hm s) as (r0 & s0 & Hrun0 & Hua0 & Hlog0).
  rewrite Hrun0 in Hrun. injection Hrun as <- <-.
  split; [congruence |]. exists []. by rewrite app_nil_r.
Qed.

Lemma steady_ret {A} (a : A) : steady ua P (ret a).
Proof. apply steady_silent. intros s. by eexists _, _. Qed.

Lemma steady_throw {A} (e : error) : steady ua P (throw (A := A) e).
Proof. apply steady_silent. intros s. by eexists _, _. Qed.

Lemma steady_lift {A} (r : result A) : steady ua P (lift r).
Proof. apply steady_silent. intros s. by eexists _, _. Qed.

Lemma steady_gets {A} (f : state -> A) : steady ua P (gets f).
Proof. apply steady_silent. intros s. by eexists _, _. Qed.

Lemma steady_push_dependencies pkgs : steady ua P (push_dependencies pkgs).
Proof. apply steady_silent. intros s. by eexists _, _. Qed.

Lemma steady_push_devDependencies pkgs :
  steady ua P (push_devDependencies pkgs).
Proof. apply steady_silent. intros s. by eexists _, _. Qed.

Lemma steady_bind {A B} (m : M A) (k : A -> M B) :
  steady ua P m -> (forall a, steady ua P (k a)) -> steady ua P (bind m k).
Proof.
  intros Hm Hk s r s' Hua. unfold bind.
  destruct (m s) as [[a|e] s1] eqn:Hrun.
  - destruct (Hm _ _ _ Hua Hrun) as (Hua1 & evs1 & Hlog1 & HP1).
    intros Hrun2.
    destruct (Hk a _ _ _ Hua1 Hrun2) as (Hua2 & evs2 & Hlog2 & HP2).
    split; [done |]. exists (evs1 ++ evs2).
    split; [by rewrite Hlog2, Hlog1, app_assoc | by apply Forall_app].
  - intros [= <- <-]. by apply (Hm _ _ _ Hua Hrun).
Qed.

(** Reading the stored answers gives [ua]. *)
Lemma steady_read {A B} (f : user_answers -> A) (k : A -> M B) :
  steady ua P (k (f ua)) ->
  steady ua P (bind (gets (fun s => f (userAnswers s))) k).
Proof.
  intros Hk s r s' Hua. unfold bind, gets. rewrite Hua. by apply Hk.
Qed.

Lemma steady_try_catch {A} (m : M A) (h : error -> M A) :
  steady ua P m -> (forall e, steady ua P (h e)) -> steady ua P (try_catch m h).
Proof.
  intros Hm Hh s r s' Hua. unfold try_catch.
  destruct (m s) as [[a|e] s1] eqn:Hrun.
  - intros [= <- <-]. by apply (Hm _ _ _ Hua Hrun).
  - destruct (Hm _ _ _ Hua Hrun) as (Hua1 & evs1 & Hlog1 & HP1).
    intros Hrun2.
    destruct (Hh e _ _ _ Hua1 Hrun2) as (Hua2 & evs2 & Hlog2 & HP2).
    split; [done |]. exists (evs1 ++ evs2).
    split; [by rewrite Hlog2, Hlog1, app_assoc | by apply Forall_app].
Qed.

Lemma steady_one {A} (ev : event) (m : M A) :
  P ev ->
  (forall s, exists r o,
      m s = (r, with_sys o (record ev s)) \/ m s = (r, record ev s)) ->
  steady ua P m.
Proof.
  intros Hev Hm s r s' Hua Hrun.
  destruct (Hm s) as (r0 & o & [Hrun0|Hrun0]);
    rewrite Hrun0 in Hrun; injection Hrun as <- <-;
    (split; [done |]); exists [ev]; by repeat constructor.
Qed.

Lemma steady_emit ev : P ev -> steady ua P (emit ev).
Proof.
  intros Hev. apply (steady_one ev); [done |].
  intros s. exists (Ok tt), (sys s). by right.
Qed.

Lemma steady_syscall ev effect : P ev -> steady ua P (syscall ev effect).
Proof.
  intros Hev. apply (steady_one ev); [done |].
  intros s. unfold syscall.
  destruct (refuses ev (sys s)); [by eexists _, (sys s); right |].
  destruct (effect (sys s)) as [o|e]; [by eexists _, o; left |].
  by eexists _, (sys s); right.
Qed.

Lemma steady_execSync command :
  P (ExecSync command) -> steady ua P (execSync command).
Proof.
  intros Hev. apply (steady_one (ExecSync command)); [done |].
  intros s. unfold execSync.
  destruct (spawn command (sys s)) as [status o]. by eexists _, o; left.
Qed.

Lemma steady_require file : P (Require file) -> steady ua P (require file).
Proof.
  intros Hev. apply (steady_one (Require file)); [done |].
  intros s. unfold require. by eexists _, (sys s); right.
Qed.

End Steady.

Ltac steady_prim :=
  first [ apply steady_ret | apply steady_throw | apply steady_lift
        | apply steady_gets | apply steady_push_dependencies
        | apply steady_push_devDependencies
        | apply steady_emit | apply steady_syscall | apply steady_execSync
        | apply steady_require ].

Ltac steady_seq :=
  repeat first [ steady_prim | apply steady_bind; [| intros ?] ].

Section Blocks.
Context `{Runtime} (ua : user_answers) (P : event -> Prop).
Hypothesis P_benign : forall ev, benign ev -> P ev.

Lemma steady_add_styling_dependencies : steady ua P add_styling_dependencies.
Proof.
  unfold add_styling_dependencies.
  apply steady_bind; [steady_prim |]. intros []; steady_prim.
Qed.

Lemma steady_add_linting_dependencies :
  (linting ua = Linting.eslintPrettier ->
   forall data, P (WriteFileSync (js ".prettierrc") data)) ->
  (linting ua = Linting.biome -> P (UnlinkSync (js "eslint.config.js"))) ->
  steady ua P add_linting_dependencies.
Proof.
  intros Hwrite Hunlink. unfold add_linting_dependencies.
  apply (steady_read _ _ linting).
  destruct (linting ua); unfold writeFileSync, unlinkSync; steady_seq; auto.
Qed.

Lemma steady_install_dependencies : steady ua P install_dependencies.
Proof.
  unfold install_dependencies, console_log.
  apply steady_bind; [steady_prim |]. intros dev.
  apply steady_bind.
  { destruct (0 <? length dev)%nat; steady_seq; by apply P_benign. }
  intros _. apply steady_bind; [steady_prim |]. intros deps.
  destruct (0 <? length deps)%nat; steady_seq; by apply P_benign.
Qed.

Lemma steady_configure_tailwind :
  (styling ua = Styling.tailwind ->
   P (WriteFileSync (js "tailwind.config.js") tailwind_config)
   /\ P (WriteFileSync (js "src/index.css") index_css)) ->
  steady ua P configure_tailwind.
Proof.
  intros Hwrite. unfold configure_tailwind.
  apply (steady_read _ _ styling).
  destruct (styling ua); unfold writeFileSync; steady_seq;
    try (by apply P_benign); by apply Hwrite.
Qed.

Lemma steady_initialize_biome : steady ua P initialize_biome.
Proof.
  unfold initialize_biome.
  apply steady_bind; [steady_prim |].
  intros []; steady_seq; by apply P_benign.
Qed.

Lemma steady_update_package_json :
  (forall data, P (WriteFileSync (js "package.json") data)) ->
  steady ua P update_package_json.
Proof.
  intros Hwrite. unfold update_package_json, process_cwd, writeFileSync.
  steady_seq; auto. by apply P_benign.
Qed.

Lemma steady_report name projectPath : steady ua P (report name projectPath).
Proof. unfold report, console_log. steady_seq; by apply P_benign. Qed.

Lemma steady_handler e : steady ua P (handler e).
Proof. unfold handler, console_error. steady_seq; by apply P_benign. Qed.

Lemma steady_scaffold : steady ua P scaffold.
Proof.
  unfold scaffold.
  apply steady_bind; [steady_prim |]. intros [name|]; [|steady_prim].
  unfold process_cwd, console_log, ensureDirSync, chdir.
  steady_seq; by apply P_benign.
Qed.

End Blocks.

(** ** Stepping through a run *)

Section Stepping.
Context `{Runtime}.

Lemma bind_ok {A B} (m : M A) (k : A -> M B) s a s1 :
  m s = (Ok a, s1) -> bind m k s = k a s1.
Proof. intros Hm. unfold bind. by rewrite Hm. Qed.

Lemma bind_thrown {A B} (m : M A) (k : A -> M B) s e s1 :
  m s = (Thrown e, s1) -> bind m k s = (Thrown e, s1).
Proof. intros Hm. unfold bind. by rewrite Hm. Qed.

Lemma try_catch_bind_ok {A B} (m : M A) (k : A -> M B) h s a s1 :
  m s = (Ok a, s1) -> try_catch (bind m k) h s = try_catch (k a) h s1.
Proof. intros Hm. unfold try_catch, bind. by rewrite Hm. Qed.

Lemma try_catch_bind_thrown {A B} (m : M A) (k : A -> M B) h s e s1 :
  m s = (Thrown e, s1) -> try_catch (bind m k) h s = h e s1.
Proof. intros Hm. unfold try_catch, bind. by rewrite Hm. Qed.

Lemma bind_assoc {A B C} (m : M A) (f : A -> M B) (g : B -> M C) s :
  bind (bind m f) g s = bind m (fun x => bind (f x) g) s.
Proof. unfold bind. by destruct (m s) as [[a|e] s1]. Qed.

Lemma try_catch_assoc {A B C} (m : M A) (f : A -> M B) (g : B -> M C) h s :
  try_catch (bind (bind m f) g) h s
  = try_catch (bind m (fun x => bind (f x) g)) h s.
Proof. unfold try_catch. by rewrite bind_assoc. Qed.

(** What the questions leave in [userAnswers]. *)
Lemma ask_questions_spec projectDirectory u s :
  ask_questions projectDirectory u s =
  match (if not_given projectDirectory
         then Some <$> NameQuestion.ask (typed u)
         else Some None), selects u with
  | Some name, Some (st, li, ro, rq) =>
      (Ok tt,
       {| sys := sys s;
          userAnswers := {| projectName := nullish name projectDirectory;
                            styling := st; linting := li; router := ro;
                            reactQuery := rq |};
          dependencies := dependencies s;
          devDependencies := devDependencies s;
          log := log s |})
  | _, _ => (Thrown PromptClosed, s)
  end.
Proof.
  unfold ask_questions, inquirer_prompt. unfold_monad.
  destruct (not_given projectDirectory);
    [destruct (NameQuestion.ask (typed u)) |];
    simpl; destruct (selects u) as [[[[st li] ro] rq]|]; reflexivity.
Qed.

Lemma steady_prepare_opening ua : steady ua opening prepare.
Proof.
  unfold prepare, resolve_options.
  assert (forall ev, benign ev -> opening ev) as Hb by (by intros []).
  apply steady_bind; [by apply steady_scaffold |]. intros project.
  apply steady_bind.
  { apply steady_bind; [by apply steady_add_styling_dependencies |].
    intros _. by apply steady_add_linting_dependencies. }
  intros _. apply steady_bind; [by apply steady_install_dependencies |].
  intros _. apply steady_ret.
Qed.

Lemma steady_finish ua P name projectPath :
  (forall ev, benign ev -> P ev) ->
  (forall data, P (WriteFileSync (js "package.json") data)) ->
  steady ua P
    (initialize_biome ;; update_package_json ;; report name projectPath ;;
     ret 0%Z).
Proof.
  intros Hb Hw.
  apply steady_bind; [by apply steady_initialize_biome |]. intros _.
  apply steady_bind; [by apply steady_update_package_json |]. intros _.
  apply steady_bind; [by apply steady_report |]. intros _.
  apply steady_ret.
Qed.

Lemma steady_closing ua name projectPath :
  steady ua closing
    (try_catch
       (initialize_biome ;; update_package_json ;; report name projectPath ;;
        ret 0%Z)
       handler).
Proof.
  assert (forall ev, benign ev -> closing ev) as Hb by (by intros []).
  apply steady_try_catch; [by apply steady_finish |].
  intros e. by apply steady_handler.
Qed.

(** Every file operation of the work is one the answers call for. *)
Lemma steady_materialize ua :
  steady ua (expected ua) (try_catch materialize handler).
Proof.
  assert (forall ev, benign ev -> expected ua ev) as Hb by (by intros []).
  apply steady_try_catch; [| intros e; by apply steady_handler].
  unfold materialize, prepare, resolve_options.
  apply steady_bind.
  { apply steady_bind; [by apply steady_scaffold |]. intros project.
    apply steady_bind.
    { apply steady_bind; [by apply steady_add_styling_dependencies |].
      intros _. apply steady_add_linting_dependencies.
      - intros Hl data. simpl. by left.
      - by intros Hl. }
    intros _. apply steady_bind; [by apply steady_install_dependencies |].
    intros _. apply steady_ret. }
  intros project. apply steady_bind.
  { apply steady_configure_tailwind; [exact Hb |].
    intros Hst. simpl. split; [right; left | right; right; left]; done. }
  intros _. apply steady_finish; [exact Hb |].
  intros data. simpl. by repeat right.
Qed.

(** The same for a whole run, from the answers it ends with. *)
Lemma run_expected projectDirectory u o :
  Forall (expected (userAnswers (run projectDirectory u o).2))
         (log (run projectDirectory u o).2).
Proof.
  unfold run, action, try_block.
  destruct (ask_questions projectDirectory u (initial o)) as [[[]|e] s1] eqn:Hask.
  - rewrite (try_catch_bind_ok _ _ _ _ _ _ Hask).
    rewrite ask_questions_spec in Hask.
    assert (log s1 = []) as Hlog by (repeat case_match; by simplify_eq).
    destruct (try_catch materialize handler s1) as [r s2] eqn:Hrun.
    destruct (steady_materialize _ _ _ _ eq_refl Hrun) as (Hua & evs & Hevs & HP).
    simpl. by rewrite Hua, Hevs, Hlog.
  - rewrite (try_catch_bind_thrown _ _ _ _ _ _ Hask).
    rewrite ask_questions_spec in Hask.
    assert (log s1 = []) as Hlog by (repeat case_match; by simplify_eq).
    destruct (handler e s1) as [r s2] eqn:Hrun.
    assert (forall ev, benign ev -> expected (userAnswers s1) ev) as Hb
      by (by intros []).
    destruct (steady_handler _ _ Hb e _ _ _ eq_refl Hrun)
      as (Hua & evs & Hevs & HP).
    simpl. by rewrite Hua, Hevs, Hlog.
Qed.

(** The answers a run ends with are the ones given. *)
Lemma run_answers projectDirectory u o st li ro rq :
  selects u = Some (st, li, ro, rq) ->
  userAnswers (run projectDirectory u o).2 = userAnswers (initial o)
  \/ (styling (userAnswers (run projectDirectory u o).2) = st
      /\ linting (userAnswers (run projectDirectory u o).2) = li).
Proof.
  intros Hsel. unfold run, action, try_block.
  destruct (ask_questions projectDirectory u (initial o)) as [[[]|e] s1] eqn:Hask.
  - right. rewrite (try_catch_bind_ok _ _ _ _ _ _ Hask).
    rewrite ask_questions_spec, Hsel in Hask.
    destruct (try_catch materialize handler s1) as [r s2] eqn:Hrun.
    destruct (steady_materialize _ _ _ _ eq_refl Hrun) as (Hua & _).
    simpl. rewrite Hua. repeat case_match; by simplify_eq.
  - left. rewrite (try_catch_bind_thrown _ _ _ _ _ _ Hask).
    rewrite ask_questions_spec in Hask.
    assert (s1 = initial o) as -> by (repeat case_match; by simplify_eq).
    destruct (handler e (initial o)) as [r s2] eqn:Hrun.
    by destruct (steady_handler _ (fun _ => True) (fun _ _ => I) e _ _ _
                   eq_refl Hrun) as (Hua & _).
Qed.

End Stepping.

(** ** The option resolver and the installation *)

Section Resolver.
Context `{Runtime}.

(** C1. With MUI and no linter chosen, the resolver leaves the four MUI
    packages, in this order, in [dependencies] and nothing in
    [devDependencies]; it touches no file, the styling step that follows
    writes none, and a run in which these two answers are given writes no
    file but the manifest. *)
Theorem mui_without_linting_plan
  (o : os) (name : option jsstring) (ro : Router.t) (rq : ReactQuery.t)
  (evs : list event) (projectDirectory : option jsstring)
  (lines : list jsstring) :
  let answered :=
    {| sys := o;
       userAnswers := {| projectName := name; styling := Styling.mui;
                         linting := Linting.none; router := ro;
                         reactQuery := rq |};
       dependencies := []; devDependencies := []; log := evs |} in
  let resolved :=
    {| sys := o; userAnswers := userAnswers answered;
       dependencies := [js "@mui/material"; js "@emotion/react";
                        js "@emotion/styled"; js "@mui/icons-material"];
       devDependencies := []; log := evs |} in
  resolve_options answered = (Ok tt, resolved)
  /\ configure_tailwind resolved = (Ok tt, resolved)
  /\ forall file data,
      WriteFileSync file data
        ∈ log (run projectDirectory
                   {| typed := lines;
                      selects := Some (Styling.mui, Linting.none, ro, rq) |}
                   o).2 ->
      file = js "package.json".
Proof.
  intros answered resolved. split; [reflexivity | split; [reflexivity |]].
  intros file data Hin.
  set (u := {| typed := lines; selects := _ |}) in *.
  pose proof (run_expected projectDirectory u o) as Hall.
  rewrite Forall_forall in Hall. specialize (Hall _ Hin). simpl in Hall.
  destruct (run_answers projectDirectory u o _ _ _ _ eq_refl) as [Hua|[Hst Hli]].
  - rewrite Hua in Hall. simpl in Hall.
    by destruct Hall as [[_ ?]|[(_ & _ & ?)|[(_ & _ & ?)|?]]].
  - rewrite Hst, Hli in Hall.
    by destruct Hall as [[_ ?]|[(_ & _ & ?)|[(_ & _ & ?)|?]]].
Qed.

(** C5. With Tailwind chosen, [devDependencies] gains [tailwindcss] at the
    version written in the program, 3.4.17, then [postcss] and
    [autoprefixer], after what it held, and [dependencies] gains nothing;
    in a fresh process the linter's packages, if any, come after them. *)
Theorem tailwind_devDependencies
  (o : os) (name : option jsstring) (li : Linting.t) (ro : Router.t)
  (rq : ReactQuery.t) (deps dev : list jsstring) (evs : list event) :
  let ua := {| projectName := name; styling := Styling.tailwind;
               linting := li; router := ro; reactQuery := rq |} in
  tailwindVersion = js "3.4.17"
  /\ add_styling_dependencies
       {| sys := o; userAnswers := ua; dependencies := deps;
          devDependencies := dev; log := evs |}
     = (Ok tt,
        {| sys := o; userAnswers := ua; dependencies := deps;
           devDependencies :=
             dev ++ [js "tailwindcss@3.4.17"; js "postcss"; js "autoprefixer"];
           log := evs |})
  /\ devDependencies
       (resolve_options
          {| sys := o; userAnswers := ua; dependencies := [];
             devDependencies := []; log := evs |}).2
     = [js "tailwindcss@3.4.17"; js "postcss"; js "autoprefixer"]
       ++ match li with
          | Linting.eslintPrettier =>
              [js "eslint"; js "prettier"; js "eslint-config-prettier";
               js "eslint-plugin-prettier"; js "eslint-plugin-react";
               js "eslint-plugin-react-hooks"]
          | Linting.biome => [js "@biomejs/biome"]
          | Linting.none => []
          end.
Proof.
  intros ua. split; [reflexivity | split; [reflexivity |]].
  unfold resolve_options, add_styling_dependencies, add_linting_dependencies,
    writeFileSync, unlinkSync.
  unfold_monad.
  destruct li; simpl; repeat case_match; reflexivity.
Qed.

(** C9. Once the plan is resolved, the package manager is started for the
    development dependencies exactly when there are some, and for the
    dependencies exactly when there are some; each time once, with the
    whole list joined by spaces in the order of insertion, the development
    dependencies first.  (The second installation is reached when the
    first one, if there was one, exited with status 0.) *)
Theorem install_invocations (s : state) :
  (devDependencies s <> [] ->
   (spawn (js "npm install --save-dev " ++ join space (devDependencies s))
          (sys s)).1 = 0%Z) ->
  exists evs,
    log (install_dependencies s).2 = log s ++ evs
    /\ commands evs =
       match devDependencies s with
       | [] => []
       | _ :: _ => [js "npm install --save-dev "
                    ++ join space (devDependencies s)]
       end
       ++ match dependencies s with
          | [] => []
          | _ :: _ => [js "npm install " ++ join space (dependencies s)]
          end.
Proof.
  destruct s as [o ua deps dev evs]. cbn [devDependencies dependencies sys log].
  intros Hdev.
  unfold install_dependencies, install_dev_command, install_command,
    execSync.
  unfold_monad. unfold record, with_sys.
  destruct dev as [|d dev]; state_cbn.
  - clear Hdev. destruct deps as [|p deps]; state_cbn.
    + exists []. by rewrite app_nil_r.
    + destruct (spawn _ o) as [status o1]. state_cbn.
      eexists [_; _]. by rewrite <- !app_assoc.
  - specialize (Hdev ltac:(done)).
    destruct (spawn _ o) as [status o1]. state_cbn. cbn [fst] in Hdev.
    subst status. state_cbn.
    destruct deps as [|p deps]; state_cbn.
    + eexists [_; _]. by rewrite <- !app_assoc.
    + destruct (spawn _ o1) as [status o2]. state_cbn.
      eexists [_; _; _; _]. by rewrite <- !app_assoc.
Qed.

End Resolver.

(** ** Whole runs *)

Section Runs.
Context `{Runtime}.

(** The styling step, when Tailwind is chosen and nothing fails. *)
Lemma configure_tailwind_effect (s : state) (o1 : os) :
  styling (userAnswers s) = Styling.tailwind ->
  spawn (js "npx tailwindcss init -p") (sys s) = (0%Z, o1) ->
  refuses (WriteFileSync (js "tailwind.config.js") tailwind_config) o1 = None ->
  let o2 :=
    {| cwd := cwd o1;
       files := <[path_resolve (cwd o1) (js "tailwind.config.js")
                  := tailwind_config]> (files o1) |} in
  refuses (WriteFileSync (js "src/index.css") index_css) o2 = None ->
  configure_tailwind s =
  (Ok tt,
   {| sys := {| cwd := cwd o1;
                files := <[path_resolve (cwd o1) (js "src/index.css")
                           := index_css]> (files o2) |};
      userAnswers := userAnswers s;
      dependencies := dependencies s;
      devDependencies := devDependencies s;
      log := log s ++ [ExecSync (js "npx tailwindcss init -p");
                       WriteFileSync (js "tailwind.config.js") tailwind_config;
                       WriteFileSync (js "src/index.css") index_css] |}).
Proof.
  intros Hst Hspawn Hr1 o2 Hr2.
  unfold configure_tailwind, writeFileSync, execSync.
  unfold_monad. rewrite Hst, Hspawn. unfold record, with_sys. state_cbn.
  rewrite Hr1. state_cbn. fold o2. rewrite Hr2.
  by rewrite <- !app_assoc.
Qed.

(** C6. In a run in which Tailwind is chosen and which gets as far as the
    styling step, once [npx tailwindcss init -p] has succeeded the program
    writes [tailwind.config.js] with the fixed template and then
    [src/index.css] with the three [@tailwind] directives (the two files
    then hold exactly these), and writes neither of them at any other
    moment of the run.  The template is the text of lines 143-153: the
    content globs [./index.html] and [./src/**/*.{js,ts,jsx,tsx}], an
    empty [theme.extend], an empty [plugins]; it is spelled out with the
    line feeds and the double quotes as code units. *)
Theorem tailwind_files_written
  (projectDirectory : option jsstring) (u : user) (o : os)
  (li : Linting.t) (ro : Router.t) (rq : ReactQuery.t)
  (project : jsstring * jsstring) (s : state) (o1 : os) :
  selects u = Some (Styling.tailwind, li, ro, rq) ->
  (ask_questions projectDirectory u ;; prepare) (initial o) = (Ok project, s) ->
  spawn (js "npx tailwindcss init -p") (sys s) = (0%Z, o1) ->
  refuses (WriteFileSync (js "tailwind.config.js") tailwind_config) o1 = None ->
  let o2 :=
    {| cwd := cwd o1;
       files := <[path_resolve (cwd o1) (js "tailwind.config.js")
                  := tailwind_config]> (files o1) |} in
  refuses (WriteFileSync (js "src/index.css") index_css) o2 = None ->
  let nl : jsstring := [10] in
  let quote : jsstring := [34] in
  tailwind_config
  = js "/** @type {import('tailwindcss').Config} */" ++ nl
    ++ js "export default {" ++ nl
    ++ js "  content: [" ++ nl
    ++ js "    " ++ quote ++ js "./index.html" ++ quote ++ js "," ++ nl
    ++ js "    " ++ quote ++ js "./src/**/*.{js,ts,jsx,tsx}" ++ quote
    ++ js "," ++ nl
    ++ js "  ]," ++ nl
    ++ js "  theme: {" ++ nl
    ++ js "    extend: {}," ++ nl
    ++ js "  }," ++ nl
    ++ js "  plugins: []," ++ nl
    ++ js "}"
  /\ index_css
     = js "@tailwind base;" ++ nl ++ js "@tailwind components;" ++ nl
       ++ js "@tailwind utilities;"
  /\ index_css = join newline [js "@tailwind base;"; js "@tailwind components;";
                               js "@tailwind utilities;"]
  /\ exists s2 rest,
      configure_tailwind s = (Ok tt, s2)
      /\ files (sys s2)
         = <[path_resolve (cwd o1) (js "src/index.css") := index_css]>
             (<[path_resolve (cwd o1) (js "tailwind.config.js")
                := tailwind_config]> (files o1))
      /\ log s2
         = log s ++ [ExecSync (js "npx tailwindcss init -p");
                     WriteFileSync (js "tailwind.config.js") tailwind_config;
                     WriteFileSync (js "src/index.css") index_css]
      /\ log (run projectDirectory u o).2 = log s2 ++ rest
      /\ forall file data,
          WriteFileSync file data ∈ log s ++ rest ->
          file = js ".prettierrc" \/ file = js "package.json".
Proof.
  intros Hsel Hpre Hspawn Hr1 o2 Hr2 nl quote.
  split; [reflexivity |]. split; [reflexivity |]. split; [reflexivity |].
  unfold bind in Hpre.
  destruct (ask_questions projectDirectory u (initial o))
    as [[[]|e] s1] eqn:Hask; [|done].
  assert (log s1 = [] /\ styling (userAnswers s1) = Styling.tailwind)
    as [Hlog1 Hst1].
  { rewrite ask_questions_spec, Hsel in Hask.
    repeat case_match; by simplify_eq. }
  destruct (steady_prepare_opening _ _ _ _ eq_refl Hpre)
    as (Hua & evs & Hlog & Hopening).
  assert (styling (userAnswers s) = Styling.tailwind) as Hst by congruence.
  pose proof (configure_tailwind_effect s o1 Hst Hspawn Hr1 Hr2) as Hcfg.
  fold o2 in Hcfg.
  match type of Hcfg with _ = (_, ?s2) => set (after := s2) in * end.
  assert (exists rest,
             log (run projectDirectory u o).2 = log after ++ rest
             /\ Forall closing rest) as (rest & Hrun & Hclosing).
  { unfold run, action, try_block.
    rewrite (try_catch_bind_ok _ _ _ _ _ _ Hask). unfold materialize.
    rewrite (try_catch_bind_ok _ _ _ _ _ _ Hpre).
    rewrite (try_catch_bind_ok _ _ _ _ _ _ Hcfg).
    match goal with
    | |- context [try_catch ?m handler after] =>
        destruct (try_catch m handler after) as [r s3] eqn:Hrest
    end.
    destruct (steady_closing _ _ _ _ _ _ eq_refl Hrest)
      as (_ & rest & Hlog3 & Hclosing).
    by exists rest. }
  exists after, rest. split; [exact Hcfg |].
  split; [reflexivity |]. split; [reflexivity |]. split; [exact Hrun |].
  intros file data. rewrite Hlog, Hlog1, app_nil_l, elem_of_app.
  rewrite Forall_forall in Hopening, Hclosing.
  intros [Hin|Hin]; [left; exact (Hopening _ Hin) | right; exact (Hclosing _ Hin)].
Qed.

(** The resolver, when Biome is chosen and the scaffolder left no
    [eslint.config.js]. *)
Lemma resolve_options_missing_config (s : state) :
  linting (userAnswers s) = Linting.biome ->
  files (sys s) !! path_resolve (cwd (sys s)) (js "eslint.config.js") = None ->
  exists s',
    resolve_options s
    = (Thrown (default (ENOENT (js "unlink") (js "eslint.config.js"))
                       (refuses (UnlinkSync (js "eslint.config.js")) (sys s))),
       s')
    /\ log s' = log s ++ [UnlinkSync (js "eslint.config.js")].
Proof.
  destruct s as [o ua deps dev evs]. state_cbn. intros Hli Hfile.
  unfold resolve_options, add_styling_dependencies, add_linting_dependencies,
    unlinkSync.
  unfold_monad. unfold record, with_sys.
  state_cbn.
  destruct (styling ua); state_cbn; rewrite Hli; state_cbn; rewrite Hfile;
    destruct (refuses _ o); by eexists.
Qed.

(** C8. In a run in which Biome is chosen and the scaffolder has left no
    [eslint.config.js], the removal of that file throws (ENOENT, unless the
    system refused the call for a reason of its own); the error goes to the
    handler, which prints it after the label [Error:] and exits with status
    1.  Nothing else happens after the failed removal. *)
Theorem missing_eslint_config_aborts
  (projectDirectory : option jsstring) (u : user) (o : os)
  (st : Styling.t) (ro : Router.t) (rq : ReactQuery.t)
  (project : jsstring * jsstring) (s : state) :
  selects u = Some (st, Linting.biome, ro, rq) ->
  (ask_questions projectDirectory u ;; scaffold) (initial o) = (Ok project, s) ->
  files (sys s) !! path_resolve (cwd (sys s)) (js "eslint.config.js") = None ->
  let e := default (ENOENT (js "unlink") (js "eslint.config.js"))
                   (refuses (UnlinkSync (js "eslint.config.js")) (sys s)) in
  exists s',
    run projectDirectory u o = (Ok 1%Z, s')
    /\ log s' = log s ++ [UnlinkSync (js "eslint.config.js");
                          ConsoleError [Chalk red (js "Error:"); Thrown_value e];
                          ProcessExit 1].
Proof.
  intros Hsel Hpre Hfile e.
  unfold bind in Hpre.
  destruct (ask_questions projectDirectory u (initial o))
    as [[[]|e0] s1] eqn:Hask; [|done].
  assert (linting (userAnswers s1) = Linting.biome) as Hli1.
  { rewrite ask_questions_spec, Hsel in Hask.
    repeat case_match; by simplify_eq. }
  destruct (steady_scaffold _ (fun _ => True) (fun _ _ => I) _ _ _ eq_refl Hpre)
    as (Hua & _).
  assert (linting (userAnswers s) = Linting.biome) as Hli by congruence.
  destruct (resolve_options_missing_config s Hli Hfile) as (s' & Hres & Hlog).
  fold e in Hres.
  assert (prepare s1 = (Thrown e, s')) as Hprep.
  { unfold prepare. rewrite (bind_ok _ _ _ _ _ Hpre).
    by rewrite (bind_thrown _ _ _ _ _ Hres). }
  unfold run, action, try_block.
  rewrite (try_catch_bind_ok _ _ _ _ _ _ Hask). unfold materialize.
  rewrite (try_catch_bind_thrown _ _ _ _ _ _ Hprep).
  unfold handler. unfold_monad. unfold record. state_cbn.
  eexists. split; [reflexivity |]. state_cbn.
  by rewrite Hlog, <- !app_assoc.
Qed.


(** How the scaffolding begins. *)
Lemma scaffold_begins (s : state) (name : jsstring) :
  projectName (userAnswers s) = Some name ->
  let dir := path_resolve (cwd (sys s)) name in
  exists rest,
    log (scaffold s).2
    = log s ++ ConsoleLog [Chalk blue (js "Creating a new React CSR app in "
                                       ++ dir)]
            :: EnsureDirSync dir :: rest
    /\ match refuses (EnsureDirSync dir) (sys s) with
       | None =>
           exists rest',
             rest = ExecSync (js "npm create vite@latest " ++ name
                              ++ js " -- --template react-swc-ts") :: rest'
       | Some _ => True
       end.
Proof.
  destruct s as [o ua deps dev evs]. state_cbn. intros Hname.
  unfold scaffold, ensureDirSync, execSync, chdir.
  unfold_monad. unfold record, with_sys. state_cbn. rewrite Hname. state_cbn.
  destruct (refuses (EnsureDirSync _) o) as [e|]; state_cbn.
  { exists []. by rewrite <- !app_assoc. }
  destruct (spawn _ o) as [status o1]. state_cbn.
  destruct (status =? 0)%Z; state_cbn.
  - destruct (refuses (Chdir _) o1); state_cbn;
      (eexists (_ :: _); split; [by rewrite <- !app_assoc | by eexists]).
  - eexists (_ :: _); split; [by rewrite <- !app_assoc | by eexists].
Qed.

(** What follows the scaffolding only adds to the log. *)
Lemma steady_after_scaffold ua project :
  steady ua (fun _ => True)
    (bind (resolve_options ;; install_dependencies ;; ret project)
          (fun project =>
             configure_tailwind ;; initialize_biome ;; update_package_json ;;
             report project.1 project.2 ;; ret 0%Z)).
Proof.
  assert (forall ev, benign ev -> True) as Hb by done.
  apply steady_bind.
  { unfold resolve_options. apply steady_bind.
    { apply steady_bind; [by apply steady_add_styling_dependencies |].
      intros _. by apply steady_add_linting_dependencies. }
    intros _. apply steady_bind; [by apply steady_install_dependencies |].
    intros _. apply steady_ret. }
  intros p. apply steady_bind; [by apply steady_configure_tailwind |].
  intros _. by apply steady_finish.
Qed.

Lemma materialize_log (s : state) :
  exists evs,
    log (try_catch materialize handler s).2 = log (scaffold s).2 ++ evs
    /\ userAnswers (try_catch materialize handler s).2 = userAnswers s.
Proof.
  assert (forall ev, benign ev -> True) as Hb by done.
  unfold materialize, prepare. rewrite try_catch_assoc.
  destruct (scaffold s) as [[project|e] s1] eqn:Hsc;
    destruct (steady_scaffold _ _ Hb _ _ _ eq_refl Hsc) as (Hua1 & _).
  - rewrite (try_catch_bind_ok _ _ _ _ _ _ Hsc).
    match goal with
    | |- context [try_catch ?m handler s1] =>
        destruct (try_catch m handler s1) as [r s2] eqn:Hrest;
        assert (steady (userAnswers s) (fun _ => True) (try_catch m handler))
          as Hsteady
    end.
    { apply steady_try_catch; [apply steady_after_scaffold |].
      intros e. by apply steady_handler. }
    destruct (Hsteady _ _ _ Hua1 Hrest) as (Hua2 & evs & Hlog & _).
    by exists evs.
  - rewrite (try_catch_bind_thrown _ _ _ _ _ _ Hsc).
    destruct (handler e s1) as [r s2] eqn:Hrest.
    destruct (steady_handler _ _ Hb e _ _ _ Hua1 Hrest) as (Hua2 & evs & Hlog & _).
    by exists evs.
Qed.

(** C10. A line of white space only passes the validation of the name
    question and is recorded as a single hyphen, which has no letter and
    no digit in it; the run then makes the directory of that name and
    hands the name to the scaffolder. *)
Theorem whitespace_only_name
  (projectDirectory : option jsstring) (input : jsstring)
  (more : list jsstring)
  (sel : Styling.t * Linting.t * Router.t * ReactQuery.t) (o : os) :
  not_given projectDirectory = true ->
  input <> [] ->
  Forall (fun c => NameQuestion.is_whitespace c = true) input ->
  let u := {| typed := input :: more; selects := Some sel |} in
  let dir := path_resolve (cwd o) (js "-") in
  NameQuestion.validate input = NameQuestion.Valid
  /\ NameQuestion.filter input = js "-"
  /\ Forall (fun c => NameQuestion.is_letter c = false
                      /\ NameQuestion.is_digit c = false) (js "-")
  /\ projectName (userAnswers (run projectDirectory u o).2) = Some (js "-")
  /\ exists rest,
      log (run projectDirectory u o).2
      = ConsoleLog [Chalk blue (js "Creating a new React CSR app in " ++ dir)]
        :: EnsureDirSync dir :: rest
      /\ match refuses (EnsureDirSync dir) o with
         | None =>
             exists rest',
               rest = ExecSync
                        (js "npm create vite@latest - -- --template react-swc-ts")
                      :: rest'
         | Some _ => True
         end.
Proof.
  intros Hpd Hne Hws u dir.
  assert (NameQuestion.validate input = NameQuestion.Valid) as Hvalid.
  { apply validate_valid, regex_test_spec. split; [done |].
    eapply Forall_impl; [exact Hws |]. apply whitespace_in_class. }
  assert (NameQuestion.filter input = js "-") as Hfilter.
  { destruct input as [|c rest]; [done |].
    inversion Hws as [|? ? Hc Hrest]; subst.
    unfold NameQuestion.filter. simpl. rewrite Hc.
    by rewrite (replace_runs_whitespace rest Hrest). }
  split; [exact Hvalid |]. split; [exact Hfilter |].
  split; [by repeat constructor |].
  assert (exists s1,
             ask_questions projectDirectory u (initial o) = (Ok tt, s1)
             /\ projectName (userAnswers s1) = Some (js "-")
             /\ sys s1 = o /\ log s1 = []) as (s1 & Hask & Hname & Hsys & Hlog).
  { rewrite ask_questions_spec, Hpd. unfold u. cbn [typed selects].
    cbn [NameQuestion.ask]. unfold NameQuestion.accept.
    rewrite Hvalid, Hfilter. destruct sel as [[[st li] ro] rq].
    by eexists. }
  unfold run, action, try_block.
  rewrite (try_catch_bind_ok _ _ _ _ _ _ Hask).
  destruct (materialize_log s1) as (evs & Hrun & Hua).
  split; [by rewrite Hua |].
  destruct (scaffold_begins s1 _ Hname) as (rest & Hsc & Hexec).
  rewrite Hsys in Hsc, Hexec. fold dir in Hsc, Hexec.
  exists (rest ++ evs). split.
  - by rewrite Hrun, Hsc, Hlog.
  - destruct (refuses (EnsureDirSync dir) o); [done |].
    destruct Hexec as (rest' & ->). by exists (rest' ++ evs).
Qed.

End Runs.

(** ** Runs on the machine of the examples *)

(** [install_invocations] at work: ESLint's packages, then MUI's. *)
Lemma install_invocations_witness :
  let s := {| sys := home; userAnswers := userAnswers (initial home);
              dependencies := mui_packages;
              devDependencies := eslint_packages; log := [] |} in
  exists evs,
    log (@install_dependencies (machine true (js "app")) s).2 = evs
    /\ commands evs =
       [js "npm install --save-dev eslint prettier eslint-config-prettier eslint-plugin-prettier eslint-plugin-react eslint-plugin-react-hooks";
        js "npm install @mui/material @emotion/react @emotion/styled @mui/icons-material"].
Proof.
  intros s.
  destruct (@install_invocations (machine true (js "app")) s)
    as (evs & Hlog & Hcommands).
  - intros _. reflexivity.
  - exists evs. split; [exact Hlog | exact Hcommands].
Defined.

(** [tailwind_files_written] at work. *)
Lemma tailwind_files_written_witness :
  exists before rest,
    log (@run (machine true (js "app")) None
              (someone (js "app") Styling.tailwind Linting.none) home).2
    = before ++ [ExecSync (js "npx tailwindcss init -p");
                 WriteFileSync (js "tailwind.config.js") tailwind_config;
                 WriteFileSync (js "src/index.css") index_css] ++ rest.
Proof.
  edestruct (@tailwind_files_written (machine true (js "app")) None
               (someone (js "app") Styling.tailwind Linting.none) home
               Linting.none Router.none ReactQuery.no)
    as (_ & _ & _ & s2 & rest & _ & _ & Hlog2 & Hrun & _).
  - reflexivity.
  - vm_compute. reflexivity.
  - vm_compute. reflexivity.
  - reflexivity.
  - reflexivity.
  - eexists _, rest. rewrite Hrun, Hlog2, <- app_assoc. reflexivity.
Defined.

(** [missing_eslint_config_aborts] at work: a scaffolder that leaves no
    [eslint.config.js]. *)
Lemma missing_eslint_config_aborts_witness :
  (@run (machine false (js "app")) None
        (someone (js "app") Styling.none Linting.biome) home).1 = Ok 1%Z.
Proof.
  edestruct (@missing_eslint_config_aborts (machine false (js "app")) None
               (someone (js "app") Styling.none Linting.biome) home
               Styling.none Router.none ReactQuery.no)
    as (s' & Hrun & _).
  - reflexivity.
  - vm_compute. reflexivity.
  - vm_compute. reflexivity.
  - rewrite Hrun. reflexivity.
Defined.

(** [whitespace_only_name] at work: a single space typed as the name. *)
Lemma whitespace_only_name_witness :
  NameQuestion.accept (js " ") = Some (js "-")
  /\ projectName
       (userAnswers
          (@run (machine true (js "-")) None
                (someone (js " ") Styling.none Linting.none) home).2)
     = Some (js "-").
Proof.
  destruct (@whitespace_only_name (machine true (js "-")) None (js " ") []
              (Styling.none, Linting.none, Router.none, ReactQuery.no) home)
    as (Hvalid & Hfilter & _ & Hname & _).
  - reflexivity.
  - vm_compute. discriminate.
  - vm_compute. repeat constructor.
  - split; [| exact Hname].
    unfold NameQuestion.accept. rewrite Hvalid, Hfilter. reflexivity.
Defined.

(** * Further properties of the program *)

(** ** The recorded name *)

Section RecordedName.
Import NameQuestion.

Lemma replace_runs_clean (in_run : bool) (input : jsstring) :
  Forall (fun c => in_class c = true) input ->
  Forall (fun c => is_whitespace c = false
                   /\ (is_letter c = true \/ is_digit c = true
                       \/ c = hyphen \/ c = underscore))
         (replace_runs in_run input).
Proof.
  intros Hall. revert in_run.
  induction Hall as [|c rest Hc _ IH]; intros in_run; [constructor |].
  simpl. destruct (is_whitespace c) eqn:Hws.
  - apply Forall_app. split; [| apply IH].
    destruct in_run; [constructor |].
    constructor; [| constructor]. split; [reflexivity | tauto].
  - constructor; [| apply IH]. split; [done |].
    apply in_class_cases in Hc. rewrite Hws in Hc.
    destruct Hc as [?|[?|[?|[?|?]]]]; auto; discriminate.
Qed.

Lemma replace_runs_without_whitespace (in_run : bool) (input : jsstring) :
  Forall (fun c => is_whitespace c = false) input ->
  replace_runs in_run input = input.
Proof.
  intros Hall. revert in_run.
  induction Hall as [|c rest Hc _ IH]; intros in_run; [done |].
  simpl. by rewrite Hc, IH.
Qed.

Lemma replace_runs_no_whitespace (in_run : bool) (input : jsstring) :
  Forall (fun c => is_whitespace c = false) (replace_runs in_run input).
Proof.
  revert in_run. induction input as [|c rest IH]; intros in_run; [constructor |].
  simpl. destruct (is_whitespace c) eqn:Hws.
  - apply Forall_app. split; [| apply IH]. destruct in_run; by repeat constructor.
  - by constructor.
Qed.

Lemma replace_runs_length (in_run : bool) (input : jsstring) :
  (length (replace_runs in_run input) <= length input)%nat.
Proof.
  revert in_run. induction input as [|c rest IH]; intros in_run; [done |].
  simpl. destruct (is_whitespace c).
  - rewrite length_app. specialize (IH true). destruct in_run; simpl; lia.
  - simpl. specialize (IH false). lia.
Qed.

(** The name an accepted line is recorded as is not empty and is made of
    ASCII letters, digits, hyphens and underscores only: there is no white
    space left in it, nor anything a shell would read as more than a
    word. *)
Theorem accepted_name_is_one_word (input name : jsstring) :
  accept input = Some name ->
  name <> []
  /\ Forall (fun c => is_whitespace c = false
                      /\ (is_letter c = true \/ is_digit c = true
                          \/ c = hyphen \/ c = underscore)) name.
Proof.
  unfold accept. destruct (validate input) eqn:Hvalid; [| done].
  intros [= <-]. apply validate_valid, regex_test_spec in Hvalid.
  destruct Hvalid as [Hne Hall]. split.
  - destruct input as [|c rest]; [done |].
    unfold filter. simpl. by destruct (is_whitespace c).
  - by apply replace_runs_clean.
Qed.

(** The filter leaves no white space, never lengthens the line, changes a
    line exactly when there is white space in it, and applied twice does
    what it does once. *)
Theorem filter_normalizes (input : jsstring) :
  Forall (fun c => is_whitespace c = false) (filter input)
  /\ (length (filter input) <= length input)%nat
  /\ (filter input = input <-> Forall (fun c => is_whitespace c = false) input)
  /\ filter (filter input) = filter input.
Proof.
  pose proof (replace_runs_no_whitespace false input) as Hclean.
  split; [exact Hclean |]. split; [apply replace_runs_length |]. split.
  - split.
    + intros Heq. unfold filter in Heq. by rewrite Heq in Hclean.
    + apply replace_runs_without_whitespace.
  - by apply replace_runs_without_whitespace.
Qed.

(** Validation and filter commute: a line and its filtered form get the
    same verdict, and typing the recorded name again records it again. *)
Theorem filtered_line_same_verdict (input : jsstring) :
  validate (filter input) = validate input
  /\ accept (filter input) = accept input.
Proof.
  pose proof (replace_runs_no_whitespace false input) as Hclean.
  assert (validate (filter input) = validate input) as Hv.
  { unfold validate, filter, regex_test.
    destruct input as [|c rest]; [done |].
    rewrite <- (replace_runs_in_class false (c :: rest)).
    simpl. by destruct (is_whitespace c). }
  split; [exact Hv |].
  unfold accept. rewrite Hv.
  destruct (validate input); [| done].
  f_equal. by apply replace_runs_without_whitespace.
Qed.

End RecordedName.

Lemma accepted_name_is_one_word_witness :
  NameQuestion.accept (js "My   App_2") = Some (js "My-App_2")
  /\ js "My-App_2" <> [].
Proof.
  assert (NameQuestion.accept (js "My   App_2") = Some (js "My-App_2")) as Hacc
    by reflexivity.
  split; [exact Hacc |].
  exact (proj1 (accepted_name_is_one_word _ _ Hacc)).
Defined.

(** ** More on the script table *)

Section ScriptsAgain.
Implicit Types (t : table) (k : jsstring).

Lemma scripts_total (li : Linting.t) t : exists t', scripts li (Some t) = Ok t'.
Proof. destruct li; by eexists. Qed.

Lemma no_linting_lookup t k :
  forall t', scripts Linting.none (Some t) = Ok t' ->
  t' !! k = if decide (k ∈ [lint; lint_fix; format]) then None else t !! k.
Proof. intros t' [= <-]. apply fromEntries_filter_lookup. Qed.

(** Patching the script table twice with the same choice gives what
    patching it once gives. *)
Theorem scripts_idempotent (li : Linting.t) t :
  exists t',
    scripts li (Some t) = Ok t' /\ scripts li (Some t') = Ok t'.
Proof.
  destruct (scripts_total li t) as [t' Ht']. exists t'. split; [done |].
  destruct script_names_distinct as (H1 & H2 & H3).
  destruct li; injection Ht' as <-; unfold scripts, spread; f_equal.
  - apply map_eq. intros k. rewrite !lookup_insert.
    repeat case_decide; by simplify_eq.
  - apply map_eq. intros k. rewrite !lookup_insert.
    repeat case_decide; by simplify_eq.
  - apply map_eq. intros k. rewrite !fromEntries_filter_lookup.
    by case_decide.
Qed.

(** Choosing no linter after any choice gives what choosing no linter at
    once gives: the linter's scripts, and only they, are taken out again.
    On a table that had none of the three names this is the table
    itself. *)
Theorem no_linting_undoes (li : Linting.t) t :
  exists t1 t2,
    scripts li (Some t) = Ok t1
    /\ scripts Linting.none (Some t1) = Ok t2
    /\ scripts Linting.none (Some t) = Ok t2
    /\ (t !! lint = None -> t !! lint_fix = None -> t !! format = None ->
        t2 = t).
Proof.
  destruct (scripts_total li t) as [t1 Ht1].
  destruct (scripts_total Linting.none t1) as [t2 Ht2].
  exists t1, t2. split; [done |]. split; [done |].
  assert (forall k, t2 !! k
                    = if decide (k ∈ [lint; lint_fix; format]) then None
                      else t !! k) as Hlookup.
  { intros k. rewrite (no_linting_lookup t1 k t2 Ht2).
    case_decide as Hk; [done |]. rewrite reserved_name in Hk.
    destruct li; simpl in Ht1; injection Ht1 as <-.
    - rewrite !lookup_insert.
      repeat case_decide; subst; try done; exfalso; tauto.
    - rewrite !lookup_insert.
      repeat case_decide; subst; try done; exfalso; tauto.
    - rewrite fromEntries_filter_lookup. case_decide as Hk'; [| done].
      rewrite reserved_name in Hk'. tauto. }
  split.
  - simpl. f_equal. apply map_eq. intros k.
    by rewrite Hlookup, fromEntries_filter_lookup.
  - intros Hl Hf Hp. apply map_eq. intros k. rewrite Hlookup.
    case_decide as Hk; [| done]. rewrite reserved_name in Hk.
    destruct Hk as [Hk|[Hk|Hk]]; by subst k.
Qed.

End ScriptsAgain.

(** ** Step by step *)

Section Inversion.
Context `{Runtime}.

Lemma bind_Ok_inv {A B} (m : M A) (k : A -> M B) s b s' :
  bind m k s = (Ok b, s') ->
  exists a s1, m s = (Ok a, s1) /\ k a s1 = (Ok b, s').
Proof.
  unfold bind. destruct (m s) as [[a|e] s1]; [| done]. by exists a, s1.
Qed.

Lemma handler_result e s :
  handler e s
  = (Ok 1%Z,
     record (ProcessExit 1)
       (record (ConsoleError [Chalk red (js "Error:"); Thrown_value e]) s)).
Proof. reflexivity. Qed.

Lemma try_catch_Ok_inv (m : M Z) s z s' :
  z <> 1%Z ->
  try_catch m handler s = (Ok z, s') -> m s = (Ok z, s').
Proof.
  intros Hz. unfold try_catch. destruct (m s) as [[a|e] s1]; [done |].
  rewrite handler_result. intros [= <- _]. done.
Qed.

(** What each step has done when it has not thrown. *)
Lemma scaffold_Ok s project s' :
  scaffold s = (Ok project, s') ->
  exists name,
    projectName (userAnswers s) = Some name
    /\ project = (name, path_resolve (cwd (sys s)) name)
    /\ userAnswers s' = userAnswers s
    /\ dependencies s' = dependencies s
    /\ devDependencies s' = devDependencies s
    /\ cwd (sys s') = path_resolve (cwd (sys s)) name
    /\ log s' = log s ++ scaffold_events name (path_resolve (cwd (sys s)) name).
Proof.
  destruct s as [o ua deps dev evs].
  unfold scaffold, ensureDirSync, execSync, chdir.
  unfold_monad. unfold record, with_sys. state_cbn.
  destruct (projectName ua) as [name|]; [| done]. state_cbn.
  destruct (refuses (EnsureDirSync _) o); [done |]. state_cbn.
  destruct (spawn _ o) as [status o1]. state_cbn.
  destruct (status =? 0)%Z; [| done]. state_cbn.
  destruct (refuses (Chdir _) o1); [done |]. state_cbn.
  intros [= <- <-]. exists name. state_cbn.
  repeat split. unfold scaffold_events. by rewrite <- !app_assoc.
Qed.

Lemma resolve_options_arrays s :
  userAnswers (resolve_options s).2 = userAnswers s
  /\ dependencies (resolve_options s).2
     = dependencies s ++ planned_dependencies (styling (userAnswers s))
  /\ devDependencies (resolve_options s).2
     = devDependencies s
       ++ planned_devDependencies (styling (userAnswers s))
                                  (linting (userAnswers s)).
Proof.
  destruct s as [o ua deps dev evs].
  unfold resolve_options, add_styling_dependencies, add_linting_dependencies,
    writeFileSync, unlinkSync, planned_dependencies, planned_devDependencies.
  unfold_monad. unfold record, with_sys. state_cbn.
  destruct (styling ua); state_cbn; destruct (linting ua); state_cbn;
    repeat case_match; state_cbn;
    rewrite ?app_nil_r, <- ?app_assoc; done.
Qed.

Lemma resolve_options_Ok s s' :
  resolve_options s = (Ok tt, s') ->
  log s' = log s ++ linting_events (linting (userAnswers s)).
Proof.
  destruct s as [o ua deps dev evs].
  unfold resolve_options, add_styling_dependencies, add_linting_dependencies,
    writeFileSync, unlinkSync, linting_events.
  unfold_monad. unfold record, with_sys. state_cbn.
  destruct (styling ua); state_cbn; destruct (linting ua); state_cbn;
    repeat case_match; state_cbn; try done; intros [= <-]; state_cbn;
    rewrite ?app_nil_r; done.
Qed.

Lemma install_dependencies_Ok s s' :
  install_dependencies s = (Ok tt, s') ->
  userAnswers s' = userAnswers s
  /\ log s' = log s ++ install_events (devDependencies s) (dependencies s).
Proof.
  destruct s as [o ua deps dev evs].
  unfold install_dependencies, install_dev_command, install_command,
    execSync, install_events.
  unfold_monad. unfold record, with_sys. state_cbn.
  destruct dev as [|d dev]; state_cbn.
  - destruct deps as [|p deps]; state_cbn.
    + intros [= <-]. by rewrite app_nil_r.
    + destruct (spawn _ o) as [status o1]. state_cbn.
      destruct (status =? 0)%Z; [| done]. intros [= <-]. state_cbn.
      by rewrite <- !app_assoc.
  - destruct (spawn _ o) as [status o1]. state_cbn.
    destruct (status =? 0)%Z; [| done]. state_cbn.
    destruct deps as [|p deps]; state_cbn.
    + intros [= <-]. state_cbn. by rewrite <- !app_assoc.
    + destruct (spawn _ o1) as [status2 o2]. state_cbn.
      destruct (status2 =? 0)%Z; [| done]. intros [= <-]. state_cbn.
      by rewrite <- !app_assoc.
Qed.

Lemma configure_tailwind_Ok s s' :
  configure_tailwind s = (Ok tt, s') ->
  userAnswers s' = userAnswers s
  /\ log s' = log s ++ tailwind_events (styling (userAnswers s)).
Proof.
  destruct s as [o ua deps dev evs].
  unfold configure_tailwind, writeFileSync, execSync, tailwind_events.
  unfold_monad. unfold record, with_sys. state_cbn.
  destruct (styling ua); state_cbn;
    try (intros [= <-]; by rewrite app_nil_r).
  destruct (spawn _ o) as [status o1]. state_cbn.
  destruct (status =? 0)%Z; [| done]. state_cbn.
  destruct (refuses (WriteFileSync (js "tailwind.config.js") _) o1); [done |].
  state_cbn.
  destruct (refuses (WriteFileSync (js "src/index.css") _) _); [done |].
  intros [= <-]. state_cbn. by rewrite <- !app_assoc.
Qed.

Lemma initialize_biome_Ok s s' :
  initialize_biome s = (Ok tt, s') ->
  userAnswers s' = userAnswers s
  /\ log s' = log s ++ biome_events (linting (userAnswers s)).
Proof.
  destruct s as [o ua deps dev evs].
  unfold initialize_biome, execSync, biome_events.
  unfold_monad. unfold record, with_sys. state_cbn.
  destruct (linting ua); state_cbn;
    try (intros [= <-]; by rewrite app_nil_r).
  destruct (spawn _ o) as [status o1]. state_cbn.
  destruct (status =? 0)%Z; [| done]. by intros [= <-].
Qed.

Lemma update_package_json_Ok s s' :
  update_package_json s = (Ok tt, s') ->
  userAnswers s' = userAnswers s
  /\ exists text m t',
      files (sys s) !! path_join (cwd (sys s)) (js "package.json") = Some text
      /\ JSON_parse text = Some m
      /\ scripts (linting (userAnswers s)) (pkg_scripts m) = Ok t'
      /\ sys s'
         = {| cwd := cwd (sys s);
              files := <[path_resolve (cwd (sys s)) (js "package.json")
                         := JSON_stringify
                              (manifest_json {| pkg_scripts := Some t';
                                                pkg_members := pkg_members m |})]>
                         (files (sys s)) |}
      /\ log s'
         = log s ++ [Require (path_join (cwd (sys s)) (js "package.json"));
                     WriteFileSync (js "package.json")
                       (JSON_stringify
                          (manifest_json {| pkg_scripts := Some t';
                                            pkg_members := pkg_members m |}))].
Proof.
  destruct s as [o ua deps dev evs].
  unfold update_package_json, require, writeFileSync.
  unfold_monad. unfold record, with_sys. state_cbn.
  destruct (refuses (Require _) o); [done |].
  destruct (files o !! _) as [text|] eqn:Hfile; [| done].
  destruct (JSON_parse text) as [m|] eqn:Hparse; [| done]. state_cbn.
  destruct (scripts (linting ua) (pkg_scripts m)) as [t'|] eqn:Hscripts;
    [| done].
  state_cbn. destruct (refuses (WriteFileSync _ _) o); [done |].
  intros [= <-]. state_cbn. split; [done |].
  exists text, m, t'. repeat split; try done. by rewrite <- !app_assoc.
Qed.

Lemma log_record ev s : log (record ev s) = log s ++ [ev].
Proof. reflexivity. Qed.

Lemma report_result name projectPath s :
  exists s',
    report name projectPath s = (Ok tt, s')
    /\ userAnswers s' = userAnswers s
    /\ sys s' = sys s
    /\ log s' = log s ++ report_events name projectPath.
Proof.
  unfold report. unfold_monad.
  eexists. split; [reflexivity |]. split; [reflexivity |].
  split; [reflexivity |].
  rewrite !log_record. unfold report_events. by rewrite <- !app_assoc.
Qed.

(** Children that leave the working directory of the process alone, as
    children do: then the steps between [process.chdir] and the manifest
    leave it alone too. *)
Lemma keeps_cwd_ret {A} (a : A) : keeps_cwd (ret a).
Proof. by intros s. Qed.

Lemma keeps_cwd_gets {A} (f : state -> A) : keeps_cwd (gets f).
Proof. by intros s. Qed.

Lemma keeps_cwd_push_dependencies pkgs : keeps_cwd (push_dependencies pkgs).
Proof. by intros s. Qed.

Lemma keeps_cwd_push_devDependencies pkgs :
  keeps_cwd (push_devDependencies pkgs).
Proof. by intros s. Qed.

Lemma keeps_cwd_emit ev : keeps_cwd (emit ev).
Proof. by intros s. Qed.

Lemma keeps_cwd_bind {A B} (m : M A) (k : A -> M B) :
  keeps_cwd m -> (forall a, keeps_cwd (k a)) -> keeps_cwd (bind m k).
Proof.
  intros Hm Hk s. unfold bind. specialize (Hm s).
  destruct (m s) as [[a|e] s1]; cbn [snd] in *; [| done].
  by rewrite Hk.
Qed.

Lemma keeps_cwd_syscall ev effect :
  (forall o o', effect o = Ok o' -> cwd o' = cwd o) ->
  keeps_cwd (syscall ev effect).
Proof.
  intros Heffect s. unfold syscall.
  destruct (refuses ev (sys s)); [done |].
  destruct (effect (sys s)) as [o'|e] eqn:Ho; [| done].
  cbn. by apply Heffect.
Qed.

Lemma keeps_cwd_writeFileSync file data : keeps_cwd (writeFileSync file data).
Proof. apply keeps_cwd_syscall. by intros o o' [= <-]. Qed.

Lemma keeps_cwd_unlinkSync file : keeps_cwd (unlinkSync file).
Proof.
  apply keeps_cwd_syscall. intros o o'.
  destruct (files o !! _); [| done]. by intros [= <-].
Qed.

Section Children.
Hypothesis children_keep_cwd :
  forall command o, cwd (spawn command o).2 = cwd o.

Lemma keeps_cwd_execSync command : keeps_cwd (execSync command).
Proof.
  intros s. unfold execSync. specialize (children_keep_cwd command (sys s)).
  by destruct (spawn command (sys s)) as [status o1].
Qed.

Ltac keeps_cwd_auto :=
  repeat first
    [ apply keeps_cwd_ret | apply keeps_cwd_gets
    | apply keeps_cwd_push_dependencies | apply keeps_cwd_push_devDependencies
    | apply keeps_cwd_emit | apply keeps_cwd_writeFileSync
    | apply keeps_cwd_unlinkSync | apply keeps_cwd_execSync
    | apply keeps_cwd_bind; [| intros ?]
    | match goal with
      | |- keeps_cwd (match ?x with _ => _ end) => destruct x
      end ].

Lemma keeps_cwd_until_manifest :
  keeps_cwd (resolve_options ;; install_dependencies ;; configure_tailwind ;;
             initialize_biome).
Proof.
  unfold resolve_options, add_styling_dependencies, add_linting_dependencies,
    install_dependencies, configure_tailwind, initialize_biome, console_log.
  keeps_cwd_auto;
    try (match goal with |- keeps_cwd (if ?b then _ else _) => destruct b end;
         keeps_cwd_auto).
Qed.

End Children.

End Inversion.

(** ** Runs that succeed, runs that fail *)

Ltac steady_auto :=
  repeat first
    [ steady_prim
    | apply steady_bind; [| intros ?]
    | match goal with
      | |- steady _ _ (match ?x with _ => _ end) => destruct x
      end ].

Section Outcomes.
Context `{Runtime}.

(** The work, when it does not throw, has logged exactly this; [before]
    is the machine as it was when the manifest was read. *)
Lemma materialize_Ok s z s' :
  dependencies s = [] -> devDependencies s = [] ->
  materialize s = (Ok z, s') ->
  z = 0%Z
  /\ userAnswers s' = userAnswers s
  /\ exists name text m t' before,
      projectName (userAnswers s) = Some name
      /\ ((forall command o, cwd (spawn command o).2 = cwd o) ->
          cwd before = path_resolve (cwd (sys s)) name)
      /\ files before !! path_join (cwd before) (js "package.json") = Some text
      /\ JSON_parse text = Some m
      /\ scripts (linting (userAnswers s)) (pkg_scripts m) = Ok t'
      /\ sys s'
         = {| cwd := cwd before;
              files := <[path_resolve (cwd before) (js "package.json")
                         := JSON_stringify
                              (manifest_json {| pkg_scripts := Some t';
                                                pkg_members := pkg_members m |})]>
                         (files before) |}
      /\ log s'
         = log s
           ++ scaffold_events name (path_resolve (cwd (sys s)) name)
           ++ linting_events (linting (userAnswers s))
           ++ install_events
                (planned_devDependencies (styling (userAnswers s))
                                         (linting (userAnswers s)))
                (planned_dependencies (styling (userAnswers s)))
           ++ tailwind_events (styling (userAnswers s))
           ++ biome_events (linting (userAnswers s))
           ++ [Require (path_join (cwd before) (js "package.json"));
               WriteFileSync (js "package.json")
                 (JSON_stringify
                    (manifest_json {| pkg_scripts := Some t';
                                      pkg_members := pkg_members m |}))]
           ++ report_events name (path_resolve (cwd (sys s)) name).
Proof.
  intros Hdeps Hdev Hrun. unfold materialize, prepare in Hrun.
  apply bind_Ok_inv in Hrun as (project & s4 & Hprep & Hrun).
  apply bind_Ok_inv in Hprep as (project' & s1 & Hsc & Hprep).
  apply bind_Ok_inv in Hprep as ([] & s2 & Hres & Hprep).
  apply bind_Ok_inv in Hprep as ([] & s3 & Hins & Hprep).
  unfold ret in Hprep. injection Hprep as ? ?. subst project' s4.
  apply bind_Ok_inv in Hrun as ([] & s5 & Hcfg & Hrun).
  apply bind_Ok_inv in Hrun as ([] & s6 & Hbio & Hrun).
  apply bind_Ok_inv in Hrun as ([] & s7 & Hupd & Hrun).
  apply bind_Ok_inv in Hrun as ([] & s8 & Hrep & Hrun).
  unfold ret in Hrun. injection Hrun as ? ?. subst z s8.
  assert ((forall command o, cwd (spawn command o).2 = cwd o) ->
          cwd (sys s6) = cwd (sys s1)) as Hkeep.
  { intros Hchildren.
    pose proof (keeps_cwd_until_manifest Hchildren s1) as Hk.
    rewrite (bind_ok _ _ _ _ _ Hres) in Hk. cbn beta in Hk.
    rewrite (bind_ok _ _ _ _ _ Hins) in Hk. cbn beta in Hk.
    rewrite (bind_ok _ _ _ _ _ Hcfg) in Hk. cbn beta in Hk.
    by rewrite Hbio in Hk. }
  apply scaffold_Ok in Hsc
    as (name & Hname & -> & Hua1 & Hdeps1 & Hdev1 & Hcwd1 & Hlog1).
  pose proof (resolve_options_arrays s1) as (Hua2 & Hdeps2 & Hdev2).
  rewrite Hres in Hua2, Hdeps2, Hdev2. cbn [snd] in Hua2, Hdeps2, Hdev2.
  apply resolve_options_Ok in Hres as Hlog2.
  apply install_dependencies_Ok in Hins as (Hua3 & Hlog3).
  apply configure_tailwind_Ok in Hcfg as (Hua4 & Hlog4).
  apply initialize_biome_Ok in Hbio as (Hua5 & Hlog5).
  apply update_package_json_Ok in Hupd
    as (Hua6 & text & m & t' & Hfile & Hparse & Hscripts & Hsys6 & Hlog6).
  cbn [fst snd] in Hrep.
  destruct (report_result name (path_resolve (cwd (sys s)) name) s7)
    as (s8 & Hrep' & Hua7 & Hsys7 & Hlog7).
  rewrite Hrep in Hrep'. injection Hrep' as <-.
  rewrite Hua1 in *. rewrite Hua2 in *. rewrite Hua3 in *.
  rewrite Hua4 in *. rewrite Hua5 in *. rewrite Hua6 in *.
  split; [done |]. split; [done |].
  exists name, text, m, t', (sys s6).
  split; [done |]. split; [intros Hchildren; by rewrite Hkeep |].
  split; [done |]. split; [done |]. split; [done |].
  split; [by rewrite Hsys7 |].
  rewrite Hlog7, Hlog6, Hlog5, Hlog4, Hlog3, Hlog2, Hlog1.
  rewrite Hdeps2, Hdev2, Hdeps1, Hdev1, Hdeps, Hdev.
  by rewrite <- !app_assoc.
Qed.

Lemma steady_materialize_quiet ua :
  steady ua (fun ev => ~ failure_event ev) materialize.
Proof.
  unfold materialize, prepare, scaffold, resolve_options,
    add_styling_dependencies, add_linting_dependencies, install_dependencies,
    configure_tailwind, initialize_biome, update_package_json, report,
    process_cwd, console_log, ensureDirSync, chdir, writeFileSync, unlinkSync.
  steady_auto; try (match goal with |- steady _ _ (if ?b then _ else _) =>
                                      destruct b end; steady_auto);
    by intros [].
Qed.

Lemma ask_questions_quiet projectDirectory u o r s1 :
  ask_questions projectDirectory u (initial o) = (r, s1) ->
  sys s1 = o /\ dependencies s1 = [] /\ devDependencies s1 = []
  /\ log s1 = []
  /\ match r with
     | Ok _ =>
         exists name st li ro rq,
           selects u = Some (st, li, ro, rq)
           /\ (if not_given projectDirectory
               then NameQuestion.ask (typed u) = Some name
               else projectDirectory = Some name)
           /\ userAnswers s1
              = {| projectName := Some name; styling := st; linting := li;
                   router := ro; reactQuery := rq |}
     | Thrown e =>
         e = PromptClosed /\ userAnswers s1 = userAnswers (initial o)
         /\ (selects u = None
             \/ (not_given projectDirectory = true
                 /\ NameQuestion.ask (typed u) = None))
     end.
Proof.
  rewrite ask_questions_spec. unfold initial.
  destruct (not_given projectDirectory) eqn:Hgiven.
  - destruct (NameQuestion.ask (typed u)) as [name|];
      cbn [fmap option_fmap option_map];
      destruct (selects u) as [[[[st li] ro] rq]|];
      intros [= <- <-]; state_cbn; repeat split; auto.
    by exists name, st, li, ro, rq.
  - destruct projectDirectory as [[|c pd]|]; try discriminate.
    destruct (selects u) as [[[[st li] ro] rq]|];
      intros [= <- <-]; state_cbn; repeat split; auto.
    by exists (c :: pd), st, li, ro, rq.
Qed.

(** A run in which the questions are answered ends in one of two ways:
    with status 0 and no error reported, or with status 1 and, as its last
    two events, the error printed after the label [Error:] and the exit;
    whatever was thrown inside the [try] block, no exception leaves the
    action. *)
Theorem run_exit_status
  (projectDirectory : option jsstring) (u : user) (o : os)
  (name : jsstring) (st : Styling.t) (li : Linting.t) (ro : Router.t)
  (rq : ReactQuery.t) :
  selects u = Some (st, li, ro, rq) ->
  (if not_given projectDirectory
   then NameQuestion.ask (typed u) = Some name
   else projectDirectory = Some name) ->
  let r := run projectDirectory u o in
  (r.1 = Ok 0%Z /\ Forall (fun ev => ~ failure_event ev) (log r.2))
  \/ (r.1 = Ok 1%Z
      /\ exists before e,
          log r.2 = before ++ [ConsoleError [Chalk red (js "Error:");
                                             Thrown_value e];
                               ProcessExit 1]
          /\ Forall (fun ev => ~ failure_event ev) before).
Proof.
  intros Hsel Hname. unfold run, action, try_block. cbn zeta.
  destruct (ask_questions projectDirectory u (initial o)) as [[[]|e] s1] eqn:Hask;
    pose proof (ask_questions_quiet _ _ _ _ _ Hask)
      as (Hsys & Hdeps & Hdev & Hlog & Hr).
  - rewrite (try_catch_bind_ok _ _ _ _ _ _ Hask). unfold try_catch.
    destruct (materialize s1) as [[z|e] s2] eqn:Hrun;
      destruct (steady_materialize_quiet _ _ _ _ eq_refl Hrun)
        as (_ & evs & Hevs & Hquiet);
      rewrite Hlog in Hevs; cbn [app] in Hevs.
    + left. destruct (materialize_Ok _ _ _ Hdeps Hdev Hrun) as (-> & _).
      cbn [fst snd]. by rewrite Hevs.
    + right. rewrite handler_result. unfold record. state_cbn.
      split; [done |]. exists evs, e. split; [| done].
      by rewrite Hevs, <- !app_assoc.
  - destruct Hr as (_ & _ & [Hnone|[Hgiven Hnone]]); [congruence |].
    rewrite Hgiven in Hname. congruence.
Qed.

(** The whole log of a run that ends with status 0: the scaffolding, the
    linter's file, the installations, the styling step, the linter's
    initialisation, the manifest, the report, in this order and with
    nothing else in between.  The manifest that is required is
    [package.json] in the project directory, [text] is what it held and
    [m] what it parsed to; what is written back is [m] with the new script
    table, and the run ends with the files as they were then, but for
    that one.  (Children do not move the process to another directory:
    this is the first hypothesis.) *)
Theorem successful_run_log
  (projectDirectory : option jsstring) (u : user) (o : os) (s' : state) :
  (forall command o', cwd (spawn command o').2 = cwd o') ->
  run projectDirectory u o = (Ok 0%Z, s') ->
  exists name st li ro rq text m t' before,
    selects u = Some (st, li, ro, rq)
    /\ (if not_given projectDirectory
        then NameQuestion.ask (typed u) = Some name
        else projectDirectory = Some name)
    /\ let dir := path_resolve (cwd o) name in
       let data :=
         JSON_stringify
           (manifest_json {| pkg_scripts := Some t';
                             pkg_members := pkg_members m |}) in
       cwd before = dir
       /\ files before !! path_join dir (js "package.json") = Some text
       /\ JSON_parse text = Some m
       /\ scripts li (pkg_scripts m) = Ok t'
       /\ sys s'
          = {| cwd := dir;
               files := <[path_resolve dir (js "package.json") := data]>
                          (files before) |}
       /\ log s'
          = scaffold_events name dir
            ++ linting_events li
            ++ install_events (planned_devDependencies st li)
                              (planned_dependencies st)
            ++ tailwind_events st
            ++ biome_events li
            ++ [Require (path_join dir (js "package.json"));
                WriteFileSync (js "package.json") data]
            ++ report_events name dir.
Proof.
  unfold run, action. intros Hchildren Hrun.
  apply try_catch_Ok_inv in Hrun; [| done]. unfold try_block in Hrun.
  apply bind_Ok_inv in Hrun as ([] & s1 & Hask & Hrun).
  pose proof (ask_questions_quiet _ _ _ _ _ Hask)
    as (Hsys & Hdeps & Hdev & Hlog & Hr).
  destruct Hr as (name & st & li & ro & rq & Hsel & Hname & Hua).
  destruct (materialize_Ok _ _ _ Hdeps Hdev Hrun)
    as (_ & _ & name' & text & m & t' & before & Hname' & Hcwd & Hfile
        & Hparse & Hscripts & Hsys' & Hlog').
  specialize (Hcwd Hchildren).
  rewrite Hua in Hname', Hscripts, Hlog'.
  cbn [projectName styling linting] in Hname', Hscripts, Hlog'.
  injection Hname' as <-.
  rewrite Hlog, Hsys in Hlog'. rewrite Hsys in Hcwd.
  cbn [app] in Hlog'. rewrite Hcwd in Hfile, Hsys', Hlog'.
  by exists name, st, li, ro, rq, text, m, t', before.
Qed.

End Outcomes.

(** ** The name given on the command line *)

Section GivenName.
Context `{Runtime}.

Lemma ask_questions_Ok projectDirectory u o name st li ro rq :
  selects u = Some (st, li, ro, rq) ->
  (if not_given projectDirectory
   then NameQuestion.ask (typed u) = Some name
   else projectDirectory = Some name) ->
  ask_questions projectDirectory u (initial o)
  = (Ok tt,
     {| sys := o;
        userAnswers := {| projectName := Some name; styling := st;
                          linting := li; router := ro; reactQuery := rq |};
        dependencies := []; devDependencies := []; log := [] |}).
Proof.
  intros Hsel Hname. rewrite ask_questions_spec, Hsel.
  destruct (not_given projectDirectory); [by rewrite Hname | by subst].
Qed.

(** A name given on the command line is taken as it is: the name question
    is not asked (what would be typed plays no part), nothing is validated
    or filtered, and the directory is made and the scaffolder is started
    with that very name. *)
Theorem given_name_is_not_validated
  (name : jsstring) (lines : list jsstring)
  (sel : Styling.t * Linting.t * Router.t * ReactQuery.t) (o : os) :
  name <> [] ->
  let u := {| typed := lines; selects := Some sel |} in
  let dir := path_resolve (cwd o) name in
  run (Some name) u o = run (Some name) {| typed := []; selects := Some sel |} o
  /\ projectName (userAnswers (run (Some name) u o).2) = Some name
  /\ exists rest,
      log (run (Some name) u o).2
      = ConsoleLog [Chalk blue (js "Creating a new React CSR app in " ++ dir)]
        :: EnsureDirSync dir :: rest
      /\ match refuses (EnsureDirSync dir) o with
         | None =>
             exists rest',
               rest = ExecSync (js "npm create vite@latest " ++ name
                                ++ js " -- --template react-swc-ts") :: rest'
         | Some _ => True
         end.
Proof.
  intros Hne u dir. destruct sel as [[[st li] ro] rq].
  assert (not_given (Some name) = false) as Hgiven
    by (by destruct name).
  assert (forall u', selects u' = Some (st, li, ro, rq) ->
            ask_questions (Some name) u' (initial o)
            = (Ok tt,
               {| sys := o;
                  userAnswers := {| projectName := Some name; styling := st;
                                    linting := li; router := ro;
                                    reactQuery := rq |};
                  dependencies := []; devDependencies := []; log := [] |}))
    as Hask.
  { intros u' Hsel. apply ask_questions_Ok; [done |]. by rewrite Hgiven. }
  unfold run, action, try_block.
  rewrite (try_catch_bind_ok _ _ _ _ _ _ (Hask u eq_refl)).
  rewrite (try_catch_bind_ok _ _ _ _ _ _
             (Hask {| typed := []; selects := Some (st, li, ro, rq) |} eq_refl)).
  split; [done |].
  match goal with
  | |- context [try_catch materialize handler ?s] => set (s1 := s)
  end.
  destruct (materialize_log s1) as (evs & Hrun & Hua).
  split; [by rewrite Hua |].
  destruct (scaffold_begins s1 name eq_refl) as (rest & Hsc & Hexec).
  exists (rest ++ evs). split.
  - by rewrite Hrun, Hsc.
  - unfold s1 in Hexec. cbn [projectName styling linting userAnswers sys cwd files log] in Hexec. fold dir in Hexec.
    destruct (refuses (EnsureDirSync dir) o); [done |].
    destruct Hexec as (rest' & ->). by exists (rest' ++ evs).
Qed.

(** An empty string given as the name counts as no name given. *)
Theorem empty_name_is_no_name (u : user) (o : os) :
  run (Some []) u o = run None u o.
Proof.
  unfold run, action, try_block, try_catch, bind.
  rewrite !ask_questions_spec. cbn [not_given].
  destruct (NameQuestion.ask (typed u)) as [name|];
    cbn [fmap option_fmap option_map];
    by destruct (selects u) as [[[[st li] ro] rq]|].
Qed.

(** When the scaffolder does not exit with status 0 the run stops there:
    the error is reported, the exit status is 1, and nothing has been
    resolved, installed or written. *)
Theorem failed_scaffolder_aborts
  (projectDirectory : option jsstring) (u : user) (o o1 : os)
  (name : jsstring) (st : Styling.t) (li : Linting.t) (ro : Router.t)
  (rq : ReactQuery.t) (status : Z) :
  selects u = Some (st, li, ro, rq) ->
  (if not_given projectDirectory
   then NameQuestion.ask (typed u) = Some name
   else projectDirectory = Some name) ->
  let dir := path_resolve (cwd o) name in
  let command := js "npm create vite@latest " ++ name
                 ++ js " -- --template react-swc-ts" in
  refuses (EnsureDirSync dir) o = None ->
  spawn command o = (status, o1) ->
  status <> 0%Z ->
  exists s',
    run projectDirectory u o = (Ok 1%Z, s')
    /\ sys s' = o1
    /\ dependencies s' = [] /\ devDependencies s' = []
    /\ log s'
       = [ConsoleLog [Chalk blue (js "Creating a new React CSR app in " ++ dir)];
          EnsureDirSync dir;
          ExecSync command;
          ConsoleError [Chalk red (js "Error:");
                        Thrown_value (CommandFailed command status)];
          ProcessExit 1].
Proof.
  intros Hsel Hname dir command Hdir Hspawn Hstatus.
  pose proof (ask_questions_Ok _ _ o _ _ _ _ _ Hsel Hname) as Hask.
  unfold run, action, try_block.
  rewrite (try_catch_bind_ok _ _ _ _ _ _ Hask).
  unfold materialize, prepare. rewrite try_catch_assoc.
  match goal with
  | |- context [try_catch _ handler ?s] => set (s1 := s)
  end.
  assert (scaffold s1
          = (Thrown (CommandFailed command status),
             with_sys o1
               (record (ExecSync command)
                  (record (EnsureDirSync dir)
                     (record (ConsoleLog [Chalk blue
                                (js "Creating a new React CSR app in " ++ dir)])
                             s1))))) as Hsc.
  { unfold scaffold, ensureDirSync, execSync, chdir, s1.
    unfold_monad. unfold record, with_sys. state_cbn.
    fold dir. rewrite Hdir. state_cbn. fold command. rewrite Hspawn.
    apply Z.eqb_neq in Hstatus. by rewrite Hstatus. }
  rewrite (try_catch_bind_thrown _ _ _ _ _ _ Hsc), handler_result.
  eexists. split; [reflexivity |]. by repeat split.
Qed.

End GivenName.

(** ** The steps that can fail *)

Section Steps.
Context `{Runtime}.

(** When the installation of the development dependencies does not exit
    with status 0, the step throws and the dependencies are not
    installed. *)
Theorem failed_dev_install_stops (s : state) (status : Z) (o1 : os) :
  devDependencies s <> [] ->
  let command := js "npm install --save-dev "
                 ++ join space (devDependencies s) in
  spawn command (sys s) = (status, o1) ->
  status <> 0%Z ->
  exists s',
    install_dependencies s = (Thrown (CommandFailed command status), s')
    /\ commands (log s') = commands (log s) ++ [command].
Proof.
  destruct s as [o ua deps dev evs].
  cbn beta iota delta [sys cwd files userAnswers devDependencies dependencies log].
  intros Hdev command Hspawn Hstatus.
  unfold install_dependencies, install_dev_command, execSync.
  unfold_monad. unfold record, with_sys.
  destruct dev as [|d dev]; [done |]. state_cbn.
  fold command. rewrite Hspawn. apply Z.eqb_neq in Hstatus. rewrite Hstatus.
  eexists. split; [reflexivity |]. state_cbn.
  unfold commands. rewrite !flat_map_app. simpl. by rewrite app_nil_r.
Qed.

(** The resolver with Biome chosen and the file there: it removes
    [eslint.config.js] and no other file, and goes on. *)
Theorem biome_removes_the_eslint_config (s : state) (content : jsstring) :
  linting (userAnswers s) = Linting.biome ->
  let file := path_resolve (cwd (sys s)) (js "eslint.config.js") in
  files (sys s) !! file = Some content ->
  refuses (UnlinkSync (js "eslint.config.js")) (sys s) = None ->
  exists s',
    resolve_options s = (Ok tt, s')
    /\ cwd (sys s') = cwd (sys s)
    /\ files (sys s') = delete file (files (sys s))
    /\ log s' = log s ++ [UnlinkSync (js "eslint.config.js")].
Proof.
  destruct s as [o ua deps dev evs].
  cbn beta iota delta [sys cwd files userAnswers devDependencies dependencies log].
  intros Hli file Hfile Hok.
  unfold resolve_options, add_styling_dependencies, add_linting_dependencies,
    unlinkSync.
  unfold_monad. unfold record, with_sys. state_cbn.
  destruct (styling ua); state_cbn; rewrite Hli; state_cbn;
    rewrite Hok; fold file; rewrite Hfile; by eexists.
Qed.

(** The manifest step is all or nothing, as long as the system does not
    refuse the write itself: either it replaces the content of
    [package.json] by the manifest it read with the new script table, its
    other members as they were, and leaves every other file alone, or it
    throws before it has written (no manifest, a manifest that does not
    parse, no script table to filter) and leaves all files as they were. *)
Theorem manifest_step_all_or_nothing (s : state) :
  (forall data,
      refuses (WriteFileSync (js "package.json") data) (sys s) = None) ->
  let r := update_package_json s in
  cwd (sys r.2) = cwd (sys s)
  /\ match r.1 with
     | Ok _ =>
         exists text m t',
           files (sys s) !! path_join (cwd (sys s)) (js "package.json")
           = Some text
           /\ JSON_parse text = Some m
           /\ scripts (linting (userAnswers s)) (pkg_scripts m) = Ok t'
           /\ files (sys r.2)
              = <[path_resolve (cwd (sys s)) (js "package.json")
                  := JSON_stringify
                       (manifest_json {| pkg_scripts := Some t';
                                         pkg_members := pkg_members m |})]>
                  (files (sys s))
     | Thrown _ =>
         files (sys r.2) = files (sys s)
         /\ log r.2
            = log s ++ [Require (path_join (cwd (sys s)) (js "package.json"))]
     end.
Proof.
  destruct s as [o ua deps dev evs].
  cbn beta iota delta [sys cwd files userAnswers log].
  intros Hwrite.
  unfold update_package_json, require, writeFileSync.
  unfold_monad. unfold record, with_sys. state_cbn.
  destruct (refuses (Require _) o); [done |].
  destruct (files o !! _) as [text|] eqn:Hfile; [| done].
  destruct (JSON_parse text) as [m|] eqn:Hparse; [| done]. state_cbn.
  destruct (scripts (linting ua) (pkg_scripts m)) as [t'|] eqn:Hscripts;
    [| done].
  state_cbn. rewrite Hwrite. state_cbn.
  split; [done |]. by exists text, m, t'.
Qed.


(** Whatever the answers, a run writes no file but [.prettierrc] (with
    ESLint and Prettier), [tailwind.config.js] and [src/index.css] (with
    Tailwind, and with their fixed contents) and [package.json], and
    removes no file but [eslint.config.js] (with Biome). *)
Theorem run_touches_only_its_files
  (projectDirectory : option jsstring) (u : user) (o : os)
  (name : option jsstring) (st : Styling.t) (li : Linting.t)
  (ro : Router.t) (rq : ReactQuery.t) :
  selects u = Some (st, li, ro, rq) ->
  Forall (expected {| projectName := name; styling := st; linting := li;
                      router := ro; reactQuery := rq |})
         (log (run projectDirectory u o).2).
Proof.
  intros Hsel.
  eapply Forall_impl; [apply run_expected |].
  destruct (run_answers projectDirectory u o _ _ _ _ Hsel) as [Hua|[Hst Hli]].
  - rewrite Hua. intros [] Hev; try done; simpl in *.
    + destruct Hev as [[_ ?]|[(_ & _ & ?)|[(_ & _ & ?)|?]]]; try done.
      by repeat right.
    + by destruct Hev.
  - intros [] Hev; try done; simpl in *; by rewrite <- ?Hst, <- ?Hli.
Qed.

End Steps.

(** ** The two answers that change nothing *)

Section Inert.
Context `{Runtime}.

Lemma same_but_inert_refl s : same_but_inert s s.
Proof. by repeat split. Qed.

Lemma blind_pure {A} (r : result A) (f : state -> state) :
  (forall s1 s2, same_but_inert s1 s2 -> same_but_inert (f s1) (f s2)) ->
  blind (fun s => (r, f s)).
Proof. intros Hf s1 s2 Hs. split; [done | by apply Hf]. Qed.

Lemma blind_ret {A} (a : A) : blind (ret a).
Proof. by apply (blind_pure (Ok a) id). Qed.

Lemma blind_throw {A} (e : error) : blind (throw (A := A) e).
Proof. by apply (blind_pure (Thrown e) id). Qed.

Lemma blind_lift {A} (r : result A) : blind (lift r).
Proof. by apply (blind_pure r id). Qed.

Lemma blind_gets {A} (f : state -> A) :
  (forall s1 s2, same_but_inert s1 s2 -> f s1 = f s2) -> blind (gets f).
Proof. intros Hf s1 s2 Hs. split; [simpl; f_equal; by apply Hf | done]. Qed.

Lemma blind_bind {A B} (m : M A) (k : A -> M B) :
  blind m -> (forall a, blind (k a)) -> blind (bind m k).
Proof.
  intros Hm Hk s1 s2 Hs. unfold bind.
  destruct (Hm s1 s2 Hs) as [Hr Hs'].
  destruct (m s1) as [[a1|e1] s1'], (m s2) as [[a2|e2] s2'];
    simpl in Hr, Hs'; simplify_eq; [by apply Hk | done].
Qed.

Lemma blind_try_catch {A} (m : M A) (h : error -> M A) :
  blind m -> (forall e, blind (h e)) -> blind (try_catch m h).
Proof.
  intros Hm Hh s1 s2 Hs. unfold try_catch.
  destruct (Hm s1 s2 Hs) as [Hr Hs'].
  destruct (m s1) as [[a1|e1] s1'], (m s2) as [[a2|e2] s2'];
    simpl in Hr, Hs'; simplify_eq; [done | by apply Hh].
Qed.

Lemma blind_push_dependencies pkgs : blind (push_dependencies pkgs).
Proof.
  intros s1 s2 (? & ? & ? & ? & ? & ? & ?).
  split; [done |]. repeat split; simpl; congruence.
Qed.

Lemma blind_push_devDependencies pkgs : blind (push_devDependencies pkgs).
Proof.
  intros s1 s2 (? & ? & ? & ? & ? & ? & ?).
  split; [done |]. repeat split; simpl; congruence.
Qed.

Lemma blind_emit ev : blind (emit ev).
Proof.
  intros s1 s2 (? & ? & ? & ? & ? & ? & ?).
  split; [done |]. repeat split; simpl; congruence.
Qed.

Lemma blind_syscall ev effect : blind (syscall ev effect).
Proof.
  intros s1 s2 (Hsys & ? & ? & ? & ? & ? & ?). unfold syscall.
  rewrite Hsys. destruct (refuses ev (sys s2)).
  - split; [done |]. repeat split; simpl; congruence.
  - destruct (effect (sys s2));
      (split; [done |]); repeat split; simpl; congruence.
Qed.

Lemma blind_execSync command : blind (execSync command).
Proof.
  intros s1 s2 (Hsys & ? & ? & ? & ? & ? & ?). unfold execSync.
  rewrite Hsys. destruct (spawn command (sys s2)) as [status o1].
  split; [done |]. repeat split; simpl; congruence.
Qed.

Lemma blind_require file : blind (require file).
Proof.
  intros s1 s2 (Hsys & ? & ? & ? & ? & ? & ?). unfold require.
  rewrite Hsys. split; [done |]. repeat split; simpl; congruence.
Qed.

Ltac blind_auto :=
  repeat first
    [ apply blind_ret | apply blind_throw | apply blind_lift
    | apply blind_push_dependencies | apply blind_push_devDependencies
    | apply blind_emit | apply blind_syscall | apply blind_execSync
    | apply blind_require
    | apply blind_gets;
      intros ? ? (? & ? & ? & ? & ? & ? & ?); simpl; congruence
    | apply blind_bind; [| intros ?]
    | match goal with
      | |- blind (match ?x with _ => _ end) => destruct x
      end ].

Lemma blind_work : blind (try_catch materialize handler).
Proof.
  apply blind_try_catch.
  - unfold materialize, prepare, scaffold, resolve_options,
      add_styling_dependencies, add_linting_dependencies,
      install_dependencies, configure_tailwind, initialize_biome,
      update_package_json, report, process_cwd, console_log, ensureDirSync,
      chdir, writeFileSync, unlinkSync.
    blind_auto;
      try (match goal with |- blind (if ?b then _ else _) => destruct b end;
           blind_auto).
  - intros e. unfold handler, console_error. blind_auto.
Qed.

(** The answers to the router and the React Query questions change
    nothing: two runs that differ only in them end with the same status,
    the same log, the same files and the same package lists. *)
Theorem router_and_reactQuery_are_inert
  (projectDirectory : option jsstring) (lines : list jsstring)
  (st : Styling.t) (li : Linting.t) (ro ro' : Router.t)
  (rq rq' : ReactQuery.t) (o : os) :
  let r := run projectDirectory
               {| typed := lines; selects := Some (st, li, ro, rq) |} o in
  let r' := run projectDirectory
                {| typed := lines; selects := Some (st, li, ro', rq') |} o in
  r.1 = r'.1
  /\ log r.2 = log r'.2
  /\ sys r.2 = sys r'.2
  /\ dependencies r.2 = dependencies r'.2
  /\ devDependencies r.2 = devDependencies r'.2.
Proof.
  cbn zeta.
  assert (forall u,
            run projectDirectory u o
            = match ask_questions projectDirectory u (initial o) with
              | (Ok _, s1) => try_catch materialize handler s1
              | (Thrown e, s1) => handler e s1
              end) as Hrun.
  { intros u. unfold run, action, try_block, try_catch, bind.
    by destruct (ask_questions projectDirectory u (initial o)) as [[[]|e] s1]. }
  rewrite !Hrun, !ask_questions_spec. cbn [typed selects].
  destruct (if not_given projectDirectory
            then Some <$> NameQuestion.ask lines else Some None)
    as [name|]; [| done].
  match goal with
  | |- (try_catch materialize handler ?a).1 = (try_catch materialize handler ?b).1 /\ _ =>
      destruct (blind_work a b) as (Hr & Hs & _ & _ & _ & Hd & Hv & Hl)
  end; [by repeat split |].
  by repeat split.
Qed.

(** The plan of the resolver for all nine pairs of answers, whether or not
    the resolver then fails on the linter's file: [dependencies] is MUI's
    packages or nothing, [devDependencies] is Tailwind's packages, if any,
    followed by the linter's, if any. *)
Theorem resolver_plan
  (o : os) (name : option jsstring) (st : Styling.t) (li : Linting.t)
  (ro : Router.t) (rq : ReactQuery.t) (evs : list event) :
  let r := resolve_options
             {| sys := o;
                userAnswers := {| projectName := name; styling := st;
                                  linting := li; router := ro;
                                  reactQuery := rq |};
                dependencies := []; devDependencies := []; log := evs |} in
  dependencies r.2 = planned_dependencies st
  /\ devDependencies r.2 = planned_devDependencies st li
  /\ commands (log r.2) = commands evs.
Proof.
  cbn zeta.
  match goal with |- context [resolve_options ?s] => set (s0 := s) end.
  destruct (resolve_options_arrays s0) as (_ & Hdeps & Hdev).
  split; [exact Hdeps |]. split; [exact Hdev |].
  unfold s0, resolve_options, add_styling_dependencies,
    add_linting_dependencies, writeFileSync, unlinkSync.
  unfold_monad. unfold record, with_sys. state_cbn.
  destruct st; state_cbn; destruct li; state_cbn;
    repeat case_match; state_cbn;
    unfold commands; rewrite ?flat_map_app; simpl; by rewrite ?app_nil_r.
Qed.

End Inert.

(** ** The further properties on the machines of the examples *)

Lemma run_exit_status_witness :
  (@run (machine false (js "app")) None
        (someone (js "app") Styling.none Linting.biome) home).1 = Ok 1%Z
  /\ (@run (machine true (js "app")) None
           (someone (js "app") Styling.none Linting.biome) home).1 = Ok 0%Z.
Proof.
  split.
  - destruct (@run_exit_status (machine false (js "app")) None
                (someone (js "app") Styling.none Linting.biome) home
                (js "app") Styling.none Linting.biome Router.none
                ReactQuery.no eq_refl eq_refl)
      as [[Hstatus Hquiet]|[Hstatus _]]; [| exact Hstatus].
    exfalso. revert Hquiet. vm_compute. intros Hquiet.
    repeat match goal with
           | H : Forall _ (_ :: _) |- _ =>
               apply Forall_cons in H; destruct H as [? ?]
           end.
    tauto.
  - reflexivity.
Defined.

Lemma children_of_the_machine_keep_cwd (flat : bool) (name command : jsstring)
  (o : os) :
  cwd (@spawn (machine flat name) command o).2 = cwd o.
Proof. cbn. unfold vite_spawn. by case_decide. Qed.

Lemma successful_run_log_witness :
  let r := @run (machine true (js "app")) None
                (someone (js "app") Styling.mui Linting.eslintPrettier) home in
  r.1 = Ok 0%Z
  /\ Require (js "/home/app/package.json") ∈ log r.2
  /\ cwd (sys r.2) = js "/home/app"
  /\ files (sys r.2) !! js "/home/app/package.json" = Some (js "{...}").
Proof.
  intros r.
  assert (r = (Ok 0%Z, r.2)) as Hrun by (vm_compute; reflexivity).
  destruct (@successful_run_log (machine true (js "app")) None
              (someone (js "app") Styling.mui Linting.eslintPrettier) home r.2
              (children_of_the_machine_keep_cwd true (js "app")) Hrun)
    as (name & st & li & ro & rq & text & m & t' & before & Hsel & Hname
        & Hcwd & Hfile & Hparse & Hscripts & Hsys & Hlog).
  cbn [not_given someone typed] in Hname.
  vm_compute in Hname. injection Hname as <-.
  split; [exact (f_equal fst Hrun) |]. split; [| split].
  - rewrite Hlog, !elem_of_app. do 5 right. left. by left.
  - by rewrite Hsys.
  - rewrite Hsys. cbn [sys files]. by rewrite lookup_insert_eq.
Defined.

Lemma given_name_is_not_validated_witness :
  NameQuestion.validate (js "bad!name") <> NameQuestion.Valid
  /\ projectName
       (userAnswers
          (@run (machine true (js "bad!name")) (Some (js "bad!name"))
                (someone (js "ignored") Styling.none Linting.none) home).2)
     = Some (js "bad!name").
Proof.
  split; [by vm_compute |].
  destruct (@given_name_is_not_validated (machine true (js "bad!name"))
              (js "bad!name") [js "ignored"]
              (Styling.none, Linting.none, Router.none, ReactQuery.no) home)
    as (_ & Hname & _).
  - by vm_compute.
  - exact Hname.
Defined.

Lemma failed_scaffolder_aborts_witness :
  (@run offline (Some (js "app"))
        (someone (js "app") Styling.mui Linting.none) home).1 = Ok 1%Z.
Proof.
  destruct (@failed_scaffolder_aborts offline (Some (js "app"))
              (someone (js "app") Styling.mui Linting.none) home home
              (js "app") Styling.mui Linting.none Router.none ReactQuery.no 1%Z)
    as (s' & Hrun & _).
  - reflexivity.
  - reflexivity.
  - reflexivity.
  - reflexivity.
  - discriminate.
  - rewrite Hrun. reflexivity.
Defined.

Lemma failed_dev_install_stops_witness :
  (@install_dependencies offline (in_project Linting.biome biome_packages)).1
  = Thrown (CommandFailed (js "npm install --save-dev @biomejs/biome") 1%Z).
Proof.
  destruct (@failed_dev_install_stops offline
              (in_project Linting.biome biome_packages) 1%Z scaffolded)
    as (s' & Hrun & _).
  - discriminate.
  - reflexivity.
  - discriminate.
  - rewrite Hrun. reflexivity.
Defined.

Lemma biome_removes_the_eslint_config_witness :
  files (sys (@resolve_options (machine true (js "app"))
                (in_project Linting.biome [])).2)
  !! js "/home/app/eslint.config.js" = None.
Proof.
  destruct (@biome_removes_the_eslint_config (machine true (js "app"))
              (in_project Linting.biome []) (js "export default []"))
    as (s' & Hrun & _ & Hfiles & _).
  - reflexivity.
  - by vm_compute.
  - reflexivity.
  - rewrite Hrun. cbn [snd]. rewrite Hfiles. by vm_compute.
Defined.

Lemma manifest_step_all_or_nothing_witness :
  files (sys (@update_package_json (machine true (js "app"))
                (in_project Linting.biome [])).2)
  !! js "/home/app/package.json" = Some (js "{...}").
Proof.
  destruct (@manifest_step_all_or_nothing (machine true (js "app"))
              (in_project Linting.biome []) (fun _ => eq_refl))
    as (_ & Hstep).
  revert Hstep.
  destruct (@update_package_json (machine true (js "app"))
              (in_project Linting.biome [])) as [[[]|e] s'] eqn:Hrun;
    cbn [fst snd].
  - intros (text & m & t' & _ & _ & _ & ->). by rewrite lookup_insert_eq.
  - intros [Hfiles _]. rewrite Hfiles. reflexivity.
Defined.


Lemma run_touches_only_its_files_witness :
  Forall (expected {| projectName := None; styling := Styling.tailwind;
                      linting := Linting.biome; router := Router.none;
                      reactQuery := ReactQuery.no |})
         (log (@run (machine true (js "app")) None
                    (someone (js "app") Styling.tailwind Linting.biome)
                    home).2).
Proof.
  apply (@run_touches_only_its_files (machine true (js "app"))).
  reflexivity.
Defined.
